(** * Toy Store API: a shallow embedding of [main.py] and [schemas.py]

    The development follows the layers of the program:
    - [Py]: the Python values that travel through the handlers (JSON bodies,
      dicts, truthiness);
    - [Bson]: the [ObjectId] constructor used by [get_toy];
    - [Regex]: the [$regex] operator that [list_toys] places in its filter;
    - [Schemas]: the pydantic models of [schemas.py];
    - [Database]: the store and the gateway functions imported from
      [database];
    - [Main]: the request models and the handlers of [main.py].

    Floats are represented by the rational they denote ([Q]); the program
    only compares them with bounds ([ge=0], [le=5]) and never computes with
    them. *)

From Stdlib Require Import String Ascii List Bool ZArith NArith QArith Lia.
From Stdlib.Strings Require Import Byte.
Import ListNotations.

Set Warnings "-register-all".

Local Open Scope string_scope.
Local Open Scope list_scope.

(* ================================================================== *)
(** ** Python values *)

Module Py.

(** A decoded JSON document, as [json.loads] hands it to pydantic.  A float
    is the rational it denotes, so [PFloat] holds the finite floats; the
    literals [NaN] and [Infinity], which [json.loads] reads beyond JSON, do
    not occur in the bodies considered here. *)
Inductive pyval : Type :=
| PNone
| PBool (b : bool)
| PInt (z : Z)
| PFloat (x : Q)
| PStr (s : string)
| PList (l : list pyval)
| PDict (d : list (string * pyval)).

(** A dict keeps its keys in insertion order. *)
Definition dict := list (string * pyval).

(** [d.get(k)] *)
Fixpoint dict_get (k : string) (d : dict) : option pyval :=
  match d with
  | [] => None
  | (k', v) :: rest => if String.eqb k k' then Some v else dict_get k rest
  end.

(** [if s:] on an [Optional[str]]: [None] and the empty string are falsy. *)
Definition truthy_str (o : option string) : bool :=
  match o with
  | None => false
  | Some s => negb (String.eqb s "")
  end.

(** [if l:] on a list. *)
Definition truthy_list {A : Type} (l : list A) : bool :=
  match l with
  | [] => false
  | _ :: _ => true
  end.

Definition code (c : ascii) : N := N_of_ascii c.

Definition between (lo hi : N) (c : ascii) : bool :=
  (N.leb lo (code c) && N.leb (code c) hi)%bool.

(** ASCII case folding, the part of [str.lower] the model needs. *)
Definition lower_ascii (c : ascii) : ascii :=
  if between 65 90 c then ascii_of_N (code c + 32) else c.

Fixpoint lower (s : string) : string :=
  match s with
  | EmptyString => EmptyString
  | String c r => String (lower_ascii c) (lower r)
  end.

Fixpoint forallb_str (p : ascii -> bool) (s : string) : bool :=
  match s with
  | EmptyString => true
  | String c r => (p c && forallb_str p r)%bool
  end.

End Py.

Import Py.

(* ================================================================== *)
(** ** bson.ObjectId *)

Module Bson.

(** An ObjectId holds the bytes decoded from its hexadecimal text. *)
Record ObjectId : Type := Oid { binary : list byte }.

Definition hex_value (c : ascii) : option N :=
  if between 48 57 c then Some (code c - 48)%N
  else if between 97 102 c then Some (code c - 87)%N
  else if between 65 70 c then Some (code c - 55)%N
  else None.

(** [Py_ISSPACE]: space, tab, line feed, vertical tab, form feed, carriage
    return. *)
Definition is_space (c : ascii) : bool :=
  (N.eqb (code c) 32 || between 9 13 c)%bool.

Definition byte_of_N (n : N) : byte :=
  match Byte.of_N n with
  | Some b => b
  | None => x00
  end.

(** [bytes.fromhex]: ASCII whitespace is skipped between bytes, every byte
    is two adjacent hexadecimal digits, anything else is a [ValueError]. *)
Fixpoint fromhex (s : string) : option (list byte) :=
  match s with
  | EmptyString => Some []
  | String c r =>
      if is_space c then fromhex r
      else
        match hex_value c, r with
        | Some h, String c' r' =>
            match hex_value c', fromhex r' with
            | Some l, Some bs => Some (byte_of_N (16 * h + l) :: bs)
            | _, _ => None
            end
        | _, _ => None
        end
  end.

(** [ObjectId(oid)] for a [str] argument: the text must have 24 characters
    and decode with [bytes.fromhex]; otherwise [InvalidId] is raised
    ([None] here). *)
Definition ObjectId_of_str (oid : string) : option ObjectId :=
  if Nat.eqb (String.length oid) 24 then
    match fromhex oid with
    | Some bs => Some (Oid bs)
    | None => None
    end
  else None.

Definition hex_digit (n : N) : ascii :=
  if N.ltb n 10 then ascii_of_N (48 + n) else ascii_of_N (87 + n).

(** [str(oid)]: lower-case hexadecimal of the bytes. *)
Fixpoint hexlify (bs : list byte) : string :=
  match bs with
  | [] => EmptyString
  | b :: r =>
      let n := Byte.to_N b in
      String (hex_digit (N.div n 16)) (String (hex_digit (N.modulo n 16)) (hexlify r))
  end.

Definition str (o : ObjectId) : string := hexlify (binary o).

Definition byte_eqb (a b : byte) : bool := N.eqb (Byte.to_N a) (Byte.to_N b).

Fixpoint bytes_eqb (a b : list byte) : bool :=
  match a, b with
  | [], [] => true
  | x :: a', y :: b' => (byte_eqb x y && bytes_eqb a' b')%bool
  | _, _ => false
  end.

(** [ObjectId.__eq__] compares the bytes. *)
Definition eqb (a b : ObjectId) : bool := bytes_eqb (binary a) (binary b).

(** The 12 bytes, most significant first, of a number below [2^96]: how the
    model draws the identifiers the store generates. *)
Fixpoint be_bytes (len : nat) (n : N) (acc : list byte) : list byte :=
  match len with
  | O => acc
  | S k => be_bytes k (N.div n 256) (byte_of_N (N.modulo n 256) :: acc)
  end.

Definition generate (counter : N) : ObjectId := Oid (be_bytes 12 counter []).

End Bson.

(* ================================================================== *)
(** ** The [$regex] query operator

    [list_toys] hands the [q] parameter to the store as a regular expression
    with the option ["i"].  The fragment interpreted here is the one where
    the meaning of a pattern is beyond doubt: a pattern of printable ASCII
    characters in which the only metacharacter is the dot, searched in a
    printable ASCII subject.  A literal character matches itself up to ASCII
    case, a dot matches any one character, and the search is unanchored.
    Everything outside the fragment is left to [pcre], the engine of the
    store, about which nothing is assumed. *)

Module Regex.

Definition printable (c : ascii) : bool := between 32 126 c.

(** The metacharacters of the pattern syntax: \ ^ $ . [ ] | ( ) ? * + { } *)
Definition is_meta (c : ascii) : bool :=
  existsb (N.eqb (code c)) [92; 94; 36; 46; 91; 93; 124; 40; 41; 63; 42; 43; 123; 125]%N.

Definition literal (c : ascii) : bool := (printable c && negb (is_meta c))%bool.

Inductive atom : Type :=
| Lit (c : ascii)
| AnyChar.

Definition atom_of (c : ascii) : option atom :=
  if N.eqb (code c) 46 then Some AnyChar
  else if literal c then Some (Lit c)
  else None.

Fixpoint compile (pattern : string) : option (list atom) :=
  match pattern with
  | EmptyString => Some []
  | String c r =>
      match atom_of c, compile r with
      | Some a, Some p => Some (a :: p)
      | _, _ => None
      end
  end.

Definition atom_matches (a : atom) (c : ascii) : bool :=
  match a with
  | Lit l => Ascii.eqb (lower_ascii l) (lower_ascii c)
  | AnyChar => true
  end.

(** The pattern matches a prefix of the subject. *)
Fixpoint match_here (p : list atom) (subject : string) : bool :=
  match p, subject with
  | [], _ => true
  | _ :: _, EmptyString => false
  | a :: p', String c r => (atom_matches a c && match_here p' r)%bool
  end.

(** The pattern matches somewhere in the subject. *)
Fixpoint search (p : list atom) (subject : string) : bool :=
  (match_here p subject
   || match subject with
      | EmptyString => false
      | String _ r => search p r
      end)%bool.

Section Engine.

(** [pcre pattern options subject]: the store's own engine. *)
Variable pcre : string -> string -> string -> bool.

Definition regex_match (pattern options subject : string) : bool :=
  if (String.eqb options "i" && forallb_str printable subject)%bool then
    match compile pattern with
    | Some p => search p subject
    | None => pcre pattern options subject
    end
  else pcre pattern options subject.

End Engine.

(** [needle] occurs in [hay] when both are folded to lower case. *)
Definition contains_ci (needle hay : string) : Prop :=
  exists pre post, lower hay = (pre ++ lower needle ++ post)%string.

End Regex.

(* ================================================================== *)
(** ** schemas.py *)

Module Schemas.

(** *** Field validators of pydantic

    Each returns [None] when the value is rejected.  A [str] field takes a
    string, a [float] field a JSON number, an [int] field an integer or a
    float without fractional part, a [bool] field a boolean.  Beyond these,
    pydantic's lax mode converts some values of another JSON type (a numeric
    string for a number, 0 and 1 for a boolean, ...); those conversions are
    the three functions of [Lax], about which nothing is assumed. *)

Record Lax : Type := MkLax {
  lax_float : pyval -> option Q;
  lax_int : pyval -> option Z;
  lax_bool : pyval -> option bool
}.

Definition as_str (v : pyval) : option string :=
  match v with PStr s => Some s | _ => None end.

(** An integer of magnitude at most [2^53] is a double as it stands.  A
    larger one is rounded, or refused when no double is near enough; that is
    left to [lax_float]. *)
Definition as_float (lax : Lax) (v : pyval) : option Q :=
  match v with
  | PFloat x => Some x
  | PInt z => if Z.leb (Z.abs z) (2 ^ 53) then Some (inject_Z z) else lax_float lax v
  | _ => lax_float lax v
  end.

(** A float without fractional part is taken as an integer when it lies in
    the 64-bit range; outside that range the answer is left to [lax_int]. *)
Definition as_int (lax : Lax) (v : pyval) : option Z :=
  match v with
  | PInt z => Some z
  | PFloat x =>
      let r := Qred x in
      if Pos.eqb (Qden r) 1 then
        if (Z.leb (- 2 ^ 63) (Qnum r) && Z.ltb (Qnum r) (2 ^ 63))%bool then Some (Qnum r)
        else lax_int lax v
      else None
  | _ => lax_int lax v
  end.

Definition as_bool (lax : Lax) (v : pyval) : option bool :=
  match v with PBool b => Some b | _ => lax_bool lax v end.

Definition as_dict (v : pyval) : option dict :=
  match v with PDict d => Some d | _ => None end.

(** [List[T]] *)
Fixpoint all_some {A : Type} (l : list (option A)) : option (list A) :=
  match l with
  | [] => Some []
  | Some a :: r => option_map (cons a) (all_some r)
  | None :: _ => None
  end.

Definition as_list {A : Type} (f : pyval -> option A) (v : pyval) : option (list A) :=
  match v with
  | PList l => all_some (map f l)
  | _ => None
  end.

(** [Optional[T]] *)
Definition nullable {A : Type} (f : pyval -> option A) (v : pyval) : option (option A) :=
  match v with
  | PNone => Some None
  | _ => option_map Some (f v)
  end.

(** A numeric bound of [Field]. *)
Definition constrained {A : Type} (ok : A -> bool) (o : option A) : option A :=
  match o with
  | Some a => if ok a then Some a else None
  | None => None
  end.

Definition ge (bound : Q) (x : Q) : bool := Qle_bool bound x.
Definition le (bound : Q) (x : Q) : bool := Qle_bool x bound.

(** [Field(...)]: the key must be present. *)
Definition required {A : Type} (f : pyval -> option A) (k : string) (d : dict) : option A :=
  match dict_get k d with
  | Some v => f v
  | None => None
  end.

(** [Field(default)]: an absent key takes the default, which is not
    validated. *)
Definition defaulted {A : Type} (dflt : A) (f : pyval -> option A) (k : string) (d : dict)
  : option A :=
  match dict_get k d with
  | Some v => f v
  | None => Some dflt
  end.

Definition missing {A : Type} (k : string) (o : option A) : list string :=
  match o with
  | Some _ => []
  | None => [k]
  end.

Definition dump_opt_str (o : option string) : pyval :=
  match o with Some s => PStr s | None => PNone end.

Definition dump_opt_float (o : option Q) : pyval :=
  match o with Some x => PFloat x | None => PNone end.

(** *** class Toy *)

Module Toy.

Record t : Type := Make {
  name : string;
  description : option string;
  price : Q;
  category : string;
  image : option string;
  rating : option Q;
  in_stock : bool
}.

Definition rating_ok (r : option Q) : bool :=
  match r with
  | None => true
  | Some x => (ge 0 x && le 5 x)%bool
  end.

(** The constructor [Toy] applied to the keyword arguments [d]: the
    offending fields, or the model. *)
Definition validate (lax : Lax) (d : dict) : list string + t :=
  let name_ := required as_str "name" d in
  let description_ := defaulted None (nullable as_str) "description" d in
  let price_ := constrained (ge 0) (required (as_float lax) "price" d) in
  let category_ := required as_str "category" d in
  let image_ := defaulted None (nullable as_str) "image" d in
  let rating_ :=
    match dict_get "rating" d with
    | Some v => constrained rating_ok (nullable (as_float lax) v)
    | None => Some (Some (45 # 10))
    end in
  let in_stock_ := defaulted true (as_bool lax) "in_stock" d in
  match name_, description_, price_, category_, image_, rating_, in_stock_ with
  | Some n, Some de, Some p, Some c, Some i, Some r, Some s => inr (Make n de p c i r s)
  | _, _, _, _, _, _, _ =>
      inl (missing "name" name_ ++ missing "description" description_
           ++ missing "price" price_ ++ missing "category" category_
           ++ missing "image" image_ ++ missing "rating" rating_
           ++ missing "in_stock" in_stock_)
  end.

Definition model_dump (m : t) : dict :=
  [("name", PStr (name m));
   ("description", dump_opt_str (description m));
   ("price", PFloat (price m));
   ("category", PStr (category m));
   ("image", dump_opt_str (image m));
   ("rating", dump_opt_float (rating m));
   ("in_stock", PBool (in_stock m))].

End Toy.

(** *** class OrderItem *)

Module OrderItem.

Record t : Type := Make {
  toy_id : string;
  name : string;
  price : Q;
  quantity : Z;
  image : option string
}.

Definition validate (lax : Lax) (d : dict) : option t :=
  match required as_str "toy_id" d,
        required as_str "name" d,
        constrained (ge 0) (required (as_float lax) "price" d),
        constrained (Z.leb 1) (required (as_int lax) "quantity" d),
        defaulted None (nullable as_str) "image" d with
  | Some i, Some n, Some p, Some q, Some im => Some (Make i n p q im)
  | _, _, _, _, _ => None
  end.

Definition from_pyval (lax : Lax) (v : pyval) : option t :=
  match v with
  | PDict d => validate lax d
  | _ => None
  end.

Definition model_dump (m : t) : pyval :=
  PDict [("toy_id", PStr (toy_id m));
         ("name", PStr (name m));
         ("price", PFloat (price m));
         ("quantity", PInt (quantity m));
         ("image", dump_opt_str (image m))].

End OrderItem.

(** *** class Order *)

Module Order.

Record t : Type := Make {
  customer_name : string;
  customer_email : string;
  customer_address : string;
  items : list OrderItem.t;
  subtotal : Q;
  shipping : Q;
  total : Q;
  notes : option string
}.

Section EmailStr.

(** [EmailStr] delegates to the [email_validator] package: [None] when
    the text is not an address, the normalised address otherwise. *)
Variable validate_email : string -> option string.

Definition as_email (v : pyval) : option string :=
  match v with
  | PStr s => validate_email s
  | _ => None
  end.

(** The constructor [Order] applied to the keyword arguments [d]. *)
Definition validate (lax : Lax) (d : dict) : list string + t :=
  let customer_name_ := required as_str "customer_name" d in
  let customer_email_ := required as_email "customer_email" d in
  let customer_address_ := required as_str "customer_address" d in
  let items_ := required (as_list (OrderItem.from_pyval lax)) "items" d in
  let subtotal_ := constrained (ge 0) (required (as_float lax) "subtotal" d) in
  let shipping_ :=
    match dict_get "shipping" d with
    | Some v => constrained (ge 0) (as_float lax v)
    | None => Some 0%Q
    end in
  let total_ := constrained (ge 0) (required (as_float lax) "total" d) in
  let notes_ := defaulted None (nullable as_str) "notes" d in
  match customer_name_, customer_email_, customer_address_, items_,
        subtotal_, shipping_, total_, notes_ with
  | Some n, Some e, Some a, Some i, Some s, Some sh, Some t_, Some no =>
      inr (Make n e a i s sh t_ no)
  | _, _, _, _, _, _, _, _ =>
      inl (missing "customer_name" customer_name_
           ++ missing "customer_email" customer_email_
           ++ missing "customer_address" customer_address_
           ++ missing "items" items_
           ++ missing "subtotal" subtotal_
           ++ missing "shipping" shipping_
           ++ missing "total" total_
           ++ missing "notes" notes_)
  end.

End EmailStr.

Definition model_dump (m : t) : dict :=
  [("customer_name", PStr (customer_name m));
   ("customer_email", PStr (customer_email m));
   ("customer_address", PStr (customer_address m));
   ("items", PList (map OrderItem.model_dump (items m)));
   ("subtotal", PFloat (subtotal m));
   ("shipping", PFloat (shipping m));
   ("total", PFloat (total m));
   ("notes", dump_opt_str (notes m))].

End Order.

(** *** class Product *)

Module Product.

Record t : Type := Make {
  title : string;
  description : option string;
  price : Q;
  category : string;
  in_stock : bool
}.

Definition validate (lax : Lax) (d : dict) : list string + t :=
  let title_ := required as_str "title" d in
  let description_ := defaulted None (nullable as_str) "description" d in
  let price_ := constrained (ge 0) (required (as_float lax) "price" d) in
  let category_ := required as_str "category" d in
  let in_stock_ := defaulted true (as_bool lax) "in_stock" d in
  match title_, description_, price_, category_, in_stock_ with
  | Some ti, Some de, Some p, Some c, Some s => inr (Make ti de p c s)
  | _, _, _, _, _ =>
      inl (missing "title" title_ ++ missing "description" description_
           ++ missing "price" price_ ++ missing "category" category_
           ++ missing "in_stock" in_stock_)
  end.

Definition model_dump (m : t) : dict :=
  [("title", PStr (title m));
   ("description", dump_opt_str (description m));
   ("price", PFloat (price m));
   ("category", PStr (category m));
   ("in_stock", PBool (in_stock m))].

End Product.

(** *** class User *)

Module User.

Record t : Type := Make {
  name : string;
  email : string;
  address : string;
  age : option Z;
  is_active : bool
}.

Definition age_ok (a : option Z) : bool :=
  match a with
  | None => true
  | Some z => (Z.leb 0 z && Z.leb z 120)%bool
  end.

Definition dump_opt_int (o : option Z) : pyval :=
  match o with Some z => PInt z | None => PNone end.

Section EmailStr.

Variable validate_email : string -> option string.

Definition validate (lax : Lax) (d : dict) : list string + t :=
  let name_ := required as_str "name" d in
  let email_ := required (Order.as_email validate_email) "email" d in
  let address_ := required as_str "address" d in
  let age_ :=
    match dict_get "age" d with
    | Some v => constrained age_ok (nullable (as_int lax) v)
    | None => Some None
    end in
  let is_active_ := defaulted true (as_bool lax) "is_active" d in
  match name_, email_, address_, age_, is_active_ with
  | Some n, Some e, Some a, Some ag, Some ac => inr (Make n e a ag ac)
  | _, _, _, _, _ =>
      inl (missing "name" name_ ++ missing "email" email_
           ++ missing "address" address_ ++ missing "age" age_
           ++ missing "is_active" is_active_)
  end.

End EmailStr.

Definition model_dump (m : t) : dict :=
  [("name", PStr (name m));
   ("email", PStr (email m));
   ("address", PStr (address m));
   ("age", dump_opt_int (age m));
   ("is_active", PBool (is_active m))].

End User.

End Schemas.

Import Schemas.

(* ================================================================== *)
(** ** The store and the gateway imported from [database] *)

Module Database.

(** What the program writes to a collection: a dumped [Toy] (also the shape
    of the seed dicts) or a dumped [Order].  Collections hold the documents
    written through this program. *)
Inductive Document : Type :=
| DToy (toy : Toy.t)
| DOrder (order : Order.t).

Definition fields (data : Document) : dict :=
  match data with
  | DToy toy => Toy.model_dump toy
  | DOrder order => Order.model_dump order
  end.

Record StoredDoc : Type := Stored { _id : Bson.ObjectId; body : Document }.

(** A connected database: its collections by name, each in insertion
    order, and the source of fresh identifiers. *)
Record Store : Type := MkStore {
  collections : list (string * list StoredDoc);
  counter : N
}.

Inductive Event : Type :=
| Validated (model : string)
| StoreCall (operation collection_name : string).

(** Modelled from the spec: [db] of database.py, which is not among the
    sources.  It is the handle on the store, [None] when no connection was
    established at start-up.  Next to it the world keeps a log that records,
    in order, every model construction and every call that reaches the
    store. *)
Record World : Type := MkWorld { db : option Store; log : list Event }.

Inductive Exception : Type :=
| HTTPException (status_code : Z) (detail : string)
| ValidationError (model : string) (errors : list string)
| StoreUnavailable
| TypeError.

(** *** Handlers run in a state and exception monad over [World]. *)

Definition M (A : Type) : Type := World -> (Exception + A) * World.

Definition ret {A : Type} (a : A) : M A := fun w => (inr a, w).

Definition bind {A B : Type} (m : M A) (k : A -> M B) : M B :=
  fun w =>
    match m w with
    | (inr a, w') => k a w'
    | (inl e, w') => (inl e, w')
    end.

Definition raise {A : Type} (e : Exception) : M A := fun w => (inl e, w).

(** [try: ... except Exception: ...] *)
Definition try_except {A : Type} (m : M A) : M (Exception + A) :=
  fun w => let (r, w') := m w in (inr r, w').

Definition emit (e : Event) : M unit :=
  fun w => (inr tt, MkWorld (db w) (log w ++ [e])).

(** [db is None] *)
Definition db_is_None : M bool :=
  fun w => (inr (match db w with None => true | Some _ => false end), w).

(** An operation of the driver on [db]; on [None] the attribute access is
    a [TypeError]. *)
Definition on_store {A : Type} (operation collection_name : string)
           (f : Store -> A * Store) : M A :=
  fun w =>
    match db w with
    | None => (inl TypeError, w)
    | Some s =>
        let (a, s') := f s in
        (inr a, MkWorld (Some s') (log w ++ [StoreCall operation collection_name]))
    end.

Declare Scope monad_scope.
Delimit Scope monad_scope with monad.
Notation "x <- m ;; k" := (bind m (fun x => k))
  (at level 61, m at next level, right associativity) : monad_scope.
Notation "m ;; k" := (bind m (fun _ => k))
  (at level 61, right associativity) : monad_scope.

(** *** The driver's collection operations *)

Fixpoint lookup_collection (name : string) (cs : list (string * list StoredDoc))
  : list StoredDoc :=
  match cs with
  | [] => []
  | (n, docs) :: rest => if String.eqb name n then docs else lookup_collection name rest
  end.

Definition collection (name : string) (s : Store) : list StoredDoc :=
  lookup_collection name (collections s).

Fixpoint append_to (name : string) (d : StoredDoc) (cs : list (string * list StoredDoc))
  : list (string * list StoredDoc) :=
  match cs with
  | [] => [(name, [d])]
  | (n, docs) :: rest =>
      if String.eqb name n then (n, docs ++ [d]) :: rest
      else (n, docs) :: append_to name d rest
  end.

(** [insert_one]: the store draws the identifier. *)
Definition insert_one (name : string) (data : Document) (s : Store)
  : Bson.ObjectId * Store :=
  let oid := Bson.generate (counter s) in
  (oid, MkStore (append_to name (Stored oid data) (collections s)) (counter s + 1)).

(** One condition of a filter document: a plain string is an equality,
    [{"$regex": p, "$options": o}] a regular expression. *)
Inductive Condition : Type :=
| Equals (v : string)
| RegexOf (pattern options : string).

Definition Filter := list (string * Condition).

(** [filter_dict[k] = c] *)
Fixpoint setitem (k : string) (c : Condition) (f : Filter) : Filter :=
  match f with
  | [] => [(k, c)]
  | (k', c') :: rest =>
      if String.eqb k k' then (k', c) :: rest else (k', c') :: setitem k c rest
  end.

Section Query.

Variable pcre : string -> string -> string -> bool.

Definition satisfies (data : Document) (kc : string * Condition) : bool :=
  match dict_get (fst kc) (fields data), snd kc with
  | Some (PStr s), Equals v => String.eqb s v
  | Some (PStr s), RegexOf pattern options => Regex.regex_match pcre pattern options s
  | _, _ => false
  end.

Definition matches (f : Filter) (d : StoredDoc) : bool :=
  forallb (satisfies (body d)) f.

(** [db[name].find(f).limit(n)] *)
Definition find_limit (name : string) (f : Filter) (limit : nat) (s : Store)
  : list StoredDoc :=
  firstn limit (filter (matches f) (collection name s)).

End Query.

(** [db[name].find_one({"_id": oid})] *)
Definition find_one (name : string) (oid : Bson.ObjectId) : M (option StoredDoc) :=
  on_store "find_one" name
    (fun s => (List.find (fun d => Bson.eqb (_id d) oid) (collection name s), s)).

(** [db[name].count_documents({})] *)
Definition count_documents (name : string) : M nat :=
  on_store "count_documents" name (fun s => (List.length (collection name s), s)).

Local Open Scope monad_scope.

(** Modelled from the spec: [create_document] of database.py, which is not
    among the sources.  It inserts one document and returns the generated
    identifier as a string; it fails with [StoreUnavailable] if no
    connection was established. *)
Definition create_document (collection_name : string) (data : Document) : M string :=
  none <- db_is_None ;;
  if (none : bool) then raise StoreUnavailable
  else
    oid <- on_store "insert_one" collection_name (insert_one collection_name data) ;;
    ret (Bson.str oid).

(** Modelled from the spec: [get_documents] of database.py, which is not
    among the sources.  It returns at most [limit] documents matching the
    filter, and an empty sequence, never an error, if the store is
    unavailable. *)
Definition get_documents (pcre : string -> string -> string -> bool)
           (collection_name : string) (filter_dict : Filter) (limit : nat)
  : M (list StoredDoc) :=
  none <- db_is_None ;;
  if (none : bool) then ret []
  else
    on_store "find" collection_name
      (fun s => (find_limit pcre collection_name filter_dict limit s, s)).

End Database.

Import Database.

(* ================================================================== *)
(** ** main.py *)

Module Main.

Local Open Scope monad_scope.

(** *** The framework around a handler

    A route with a body parameter has the body validated against the
    request model before the handler is called; a rejected body is
    answered with a [RequestValidationError] (422) and the handler does
    not run.  An [HTTPException] raised by the handler is answered with
    its status code; any other exception escapes the handler. *)

Inductive Response : Type :=
| Reply (status_code : Z) (content : pyval)
| RequestValidationError (errors : list string)
| Raised (e : Exception).

Definition status_code_of (r : Response) : Z :=
  match r with
  | Reply status_code _ => status_code
  | RequestValidationError _ => 422
  | Raised (HTTPException status_code _) => status_code
  | Raised _ => 500
  end.

Definition respond (status_code : Z) (handler : M pyval) (w : World) : Response * World :=
  match handler w with
  | (inr content, w') => (Reply status_code content, w')
  | (inl e, w') => (Raised e, w')
  end.

Definition with_body {P : Type} (model : string) (parse : pyval -> list string + P)
           (status_code : Z) (handler : P -> M pyval) (body : pyval) (w : World)
  : Response * World :=
  let w1 := MkWorld (db w) (log w ++ [Validated model]) in
  match parse body with
  | inl errors => (RequestValidationError errors, w1)
  | inr payload => respond status_code (handler payload) w1
  end.

(** A model constructor called inside a handler. *)
Definition construct {P : Type} (model : string) (r : list string + P) : M P :=
  emit (Validated model) ;;
  match r with
  | inl errors => raise (ValidationError model errors)
  | inr p => ret p
  end.

(** The document as the handlers return it, [_id] turned into a string. *)
Definition render (d : StoredDoc) : pyval :=
  PDict (("_id", PStr (Bson.str (_id d))) :: fields (body d)).

(** *** class CreateToy *)

Module CreateToy.

Record t : Type := Make {
  name : string;
  description : option string;
  price : Q;
  category : string;
  image : option string;
  rating : option Q;
  in_stock : bool
}.

Definition validate (lax : Lax) (d : dict) : list string + t :=
  let name_ := required as_str "name" d in
  let description_ := defaulted None (nullable as_str) "description" d in
  let price_ := required (as_float lax) "price" d in
  let category_ := required as_str "category" d in
  let image_ := defaulted None (nullable as_str) "image" d in
  let rating_ := defaulted (Some (45 # 10)) (nullable (as_float lax)) "rating" d in
  let in_stock_ := defaulted true (as_bool lax) "in_stock" d in
  match name_, description_, price_, category_, image_, rating_, in_stock_ with
  | Some n, Some de, Some p, Some c, Some i, Some r, Some s => inr (Make n de p c i r s)
  | _, _, _, _, _, _, _ =>
      inl (missing "name" name_ ++ missing "description" description_
           ++ missing "price" price_ ++ missing "category" category_
           ++ missing "image" image_ ++ missing "rating" rating_
           ++ missing "in_stock" in_stock_)
  end.

Definition from_body (lax : Lax) (body : pyval) : list string + t :=
  match body with
  | PDict d => validate lax d
  | _ => inl ["body"]
  end.

Definition model_dump (m : t) : dict :=
  [("name", PStr (name m));
   ("description", dump_opt_str (description m));
   ("price", PFloat (price m));
   ("category", PStr (category m));
   ("image", dump_opt_str (image m));
   ("rating", dump_opt_float (rating m));
   ("in_stock", PBool (in_stock m))].

End CreateToy.

(** *** class CreateOrder *)

Module CreateOrder.

Record t : Type := Make {
  customer_name : string;
  customer_email : string;
  customer_address : string;
  items : list dict;
  subtotal : Q;
  shipping : Q;
  total : Q;
  notes : option string
}.

Definition validate (lax : Lax) (d : dict) : list string + t :=
  let customer_name_ := required as_str "customer_name" d in
  let customer_email_ := required as_str "customer_email" d in
  let customer_address_ := required as_str "customer_address" d in
  let items_ := required (as_list as_dict) "items" d in
  let subtotal_ := required (as_float lax) "subtotal" d in
  let shipping_ := defaulted 0%Q (as_float lax) "shipping" d in
  let total_ := required (as_float lax) "total" d in
  let notes_ := defaulted None (nullable as_str) "notes" d in
  match customer_name_, customer_email_, customer_address_, items_,
        subtotal_, shipping_, total_, notes_ with
  | Some n, Some e, Some a, Some i, Some s, Some sh, Some t_, Some no =>
      inr (Make n e a i s sh t_ no)
  | _, _, _, _, _, _, _, _ =>
      inl (missing "customer_name" customer_name_
           ++ missing "customer_email" customer_email_
           ++ missing "customer_address" customer_address_
           ++ missing "items" items_
           ++ missing "subtotal" subtotal_
           ++ missing "shipping" shipping_
           ++ missing "total" total_
           ++ missing "notes" notes_)
  end.

Definition from_body (lax : Lax) (body : pyval) : list string + t :=
  match body with
  | PDict d => validate lax d
  | _ => inl ["body"]
  end.

Definition model_dump (m : t) : dict :=
  [("customer_name", PStr (customer_name m));
   ("customer_email", PStr (customer_email m));
   ("customer_address", PStr (customer_address m));
   ("items", PList (map PDict (items m)));
   ("subtotal", PFloat (subtotal m));
   ("shipping", PFloat (shipping m));
   ("total", PFloat (total m));
   ("notes", dump_opt_str (notes m))].

End CreateOrder.

(** *** The sample catalogue of [seed_sample_toys] *)

Definition samples : list Document :=
  [DToy (Toy.Make "Cuddly Bear" (Some "Super soft plush bear.") (1999 # 100) "Plush"
           (Some "https://images.unsplash.com/photo-1612198185720-2d3a9c5a4f8e")
           (Some (47 # 10)) true);
   DToy (Toy.Make "Rainbow Stacking Rings" (Some "Classic stacking rings for toddlers.")
           (1499 # 100) "Educational"
           (Some "https://images.unsplash.com/photo-1582582621959-48f5f1d7fca1")
           (Some (46 # 10)) true);
   DToy (Toy.Make "STEM Robot Kit" (Some "Build and program your own robot.")
           (4999 # 100) "STEM"
           (Some "https://images.unsplash.com/photo-1581090464777-f3220bbe1b8b")
           (Some (48 # 10)) true)].

Section Handlers.

Variable pcre : string -> string -> string -> bool.
Variable validate_email : string -> option string.
Variable lax : Lax.

(** *** Toy endpoints *)

(** The filter [list_toys] builds from its two parameters. *)
Definition filter_dict (category q : option string) : Filter :=
  let f0 : Filter := [] in
  let f1 :=
    match category with
    | Some c => if truthy_str category then setitem "category" (Equals c) f0 else f0
    | None => f0
    end in
  match q with
  | Some p => if truthy_str q then setitem "name" (RegexOf p "i") f1 else f1
  | None => f1
  end.

Definition list_toys (category q : option string) : M pyval :=
  none <- db_is_None ;;
  if (none : bool) then ret (PList [])
  else
    toys <- get_documents pcre "toy" (filter_dict category q) 100 ;;
    ret (PList (map render toys)).

Definition create_toy (payload : CreateToy.t) : M pyval :=
  none <- db_is_None ;;
  if (none : bool) then raise (HTTPException 503 "Database unavailable")
  else
    toy <- construct "Toy" (Toy.validate lax (CreateToy.model_dump payload)) ;;
    inserted_id <- create_document "toy" (DToy toy) ;;
    ret (PDict [("_id", PStr inserted_id)]).

Definition get_toy (toy_id : string) : M pyval :=
  none <- db_is_None ;;
  if (none : bool) then raise (HTTPException 503 "Database unavailable")
  else
    match Bson.ObjectId_of_str toy_id with
    | None => raise (HTTPException 400 "Invalid toy id")
    | Some obj_id =>
        doc <- find_one "toy" obj_id ;;
        match doc with
        | None => raise (HTTPException 404 "Toy not found")
        | Some d => ret (render d)
        end
    end.

(** *** Order endpoints *)

Definition create_order (payload : CreateOrder.t) : M pyval :=
  none <- db_is_None ;;
  if (none : bool) then raise (HTTPException 503 "Database unavailable")
  else if negb (truthy_list (CreateOrder.items payload)) then
    raise (HTTPException 400 "Order must contain at least one item")
  else
    order <- construct "Order"
               (Order.validate validate_email lax (CreateOrder.model_dump payload)) ;;
    order_id <- create_document "order" (DOrder order) ;;
    ret (PDict [("order_id", PStr order_id)]).

(** *** Seeding *)

Fixpoint seed_loop (todo : list Document) (inserted : Z) : M Z :=
  match todo with
  | [] => ret inserted
  | s :: rest =>
      r <- try_except (create_document "toy" s) ;;
      match r with
      | inr _ => seed_loop rest (inserted + 1)
      | inl _ => seed_loop rest inserted
      end
  end.

Definition seed_sample_toys : M pyval :=
  none <- db_is_None ;;
  if (none : bool) then ret (PDict [("status", PStr "Database unavailable")])
  else
    count <- count_documents "toy" ;;
    if Nat.ltb 0 count then
      ret (PDict [("status", PStr "already-seeded"); ("count", PInt (Z.of_nat count))])
    else
      inserted <- seed_loop samples 0 ;;
      ret (PDict [("status", PStr "seeded"); ("inserted", PInt inserted)]).

(** *** The routes *)

Definition GET_api_toys (category q : option string) : World -> Response * World :=
  respond 200 (list_toys category q).

Definition POST_api_toys : pyval -> World -> Response * World :=
  with_body "CreateToy" (CreateToy.from_body lax) 201 create_toy.

Definition GET_api_toys_id (toy_id : string) : World -> Response * World :=
  respond 200 (get_toy toy_id).

Definition POST_api_orders : pyval -> World -> Response * World :=
  with_body "CreateOrder" (CreateOrder.from_body lax) 201 create_order.

Definition GET_api_seed : World -> Response * World :=
  respond 200 seed_sample_toys.

End Handlers.

(** *** The diagnostic route *)

(** [response[k] = v] on a dict: the key keeps its place. *)
Fixpoint dict_set (k : string) (v : pyval) (d : dict) : dict :=
  match d with
  | [] => [(k, v)]
  | (k', v') :: rest =>
      if String.eqb k k' then (k', v) :: rest else (k', v') :: dict_set k v rest
  end.

(** A byte that continues a UTF-8 character. *)
Definition is_continuation (c : ascii) : bool := between 128 191 c.

(** [s[:n]]: the first [n] characters of a text held as UTF-8. *)
Fixpoint take_chars (n : nat) (s : string) : string :=
  match s with
  | EmptyString => EmptyString
  | String c r =>
      if is_continuation c then String c (take_chars n r)
      else
        match n with
        | O => EmptyString
        | S k => String c (take_chars k r)
        end
  end.

Definition set_or_not (o : option string) : pyval :=
  if truthy_str o then PStr "✅ Set" else PStr "❌ Not Set".

Section Diagnostics.

(** [os.getenv] *)
Variable getenv : string -> option string.

(** [db.list_collection_names()]: the text of the exception it raises, or
    the names.  It is the only statement of the route that can raise, and it
    sits in the inner [try]; the outer handler therefore has no case. *)
Variable list_collection_names : Store -> string + list string.

Definition test_database : M pyval :=
  let response : dict :=
    [("backend", PStr "✅ Running");
     ("database", PStr "❌ Not Available");
     ("database_url", PNone);
     ("database_name", PNone);
     ("connection_status", PStr "Not Connected");
     ("collections", PList [])] in
  fun w =>
    match db w with
    | Some s =>
        let response := dict_set "database" (PStr "✅ Available") response in
        let response := dict_set "database_url" (set_or_not (getenv "DATABASE_URL")) response in
        let response := dict_set "database_name" (set_or_not (getenv "DATABASE_NAME")) response in
        let response := dict_set "connection_status" (PStr "Connected") response in
        let w' := MkWorld (db w) (log w ++ [StoreCall "list_collection_names" ""]) in
        match list_collection_names s with
        | inr collections =>
            let response :=
              dict_set "collections" (PList (map PStr (firstn 10 collections))) response in
            let response :=
              dict_set "database" (PStr "✅ Connected & Working") response in
            (inr (PDict response), w')
        | inl e =>
            let response :=
              dict_set "database"
                (PStr ("⚠️  Connected but Error: " ++ take_chars 50 e))
                response in
            (inr (PDict response), w')
        end
    | None =>
        let response :=
          dict_set "database" (PStr "⚠️  Available but not initialized")
            response in
        (inr (PDict response), w)
    end.

Definition GET_test : World -> Response * World := respond 200 test_database.

End Diagnostics.

End Main.

Import Main.

(* ================================================================== *)
(** ** Observations on a world and concrete inputs *)

(** The documents of a collection; none when there is no store. *)
Definition documents (name : string) (w : World) : list StoredDoc :=
  match db w with
  | Some s => collection name s
  | None => []
  end.


Definition unavailable : Exception := HTTPException 503 "Database unavailable".

(** The store after the documents of [todo] were inserted one by one. *)
Definition insert_all (name : string) (todo : list Document) (s : Store) : Store :=
  fold_left (fun st data => snd (insert_one name data st)) todo s.

(** The atoms of a pattern without metacharacters: its own characters. *)
Fixpoint literal_atoms (q : string) : list Regex.atom :=
  match q with
  | EmptyString => []
  | String c r => Regex.Lit c :: literal_atoms r
  end.

(** The driver keeps an integer in 64 bits: the quantities of an order can
    be stored when each is below [2^63] (the schema already asks for at
    least 1). *)
Definition quantities_fit (its : list OrderItem.t) : bool :=
  forallb (fun it => Z.ltb (OrderItem.quantity it) (2 ^ 63)) its.

Module Samples.

(** No conversion beyond the JSON types of the fields. *)
Definition strict : Lax := MkLax (fun _ => None) (fun _ => None) (fun _ => None).

Definition empty_store : Store := MkStore [] 0.

Definition up : World := MkWorld (Some empty_store) [].
Definition down : World := MkWorld None [].

Definition bear : Toy.t :=
  Toy.Make "Bear" None (5 # 1) "Plush" None (Some (45 # 10)) true.

(** A store holding one toy. *)
Definition one_toy : World :=
  MkWorld (Some (MkStore [("toy", [Stored (Bson.generate 0) (DToy bear)])] 1)) [].

Definition body_empty_name : pyval :=
  PDict [("name", PStr ""); ("price", PInt 5); ("category", PStr "Plush")].

Definition body_no_name : pyval :=
  PDict [("price", PInt 5); ("category", PStr "Plush")].

Definition body_negative_price : pyval :=
  PDict [("name", PStr "Bear"); ("price", PFloat (-1 # 2)); ("category", PStr "Plush")].

(** A stand-in for the address check on the sample inputs: one [@] with
    text on both sides. *)
Fixpoint has_at (seen_local : bool) (s : string) : bool :=
  match s with
  | EmptyString => false
  | String c r =>
      if N.eqb (code c) 64 then (seen_local && negb (String.eqb r ""))%bool
      else has_at true r
  end.

Definition email_syntax (s : string) : option string :=
  if has_at false s then Some s else None.

Definition item : pyval :=
  PDict [("toy_id", PStr "000000000000000000000000"); ("name", PStr "Bear");
         ("price", PFloat (1 # 1)); ("quantity", PInt 2)].

Definition order_body (email : string) (items : list pyval) : pyval :=
  PDict [("customer_name", PStr "Ada"); ("customer_email", PStr email);
         ("customer_address", PStr "1 Main St"); ("items", PList items);
         ("subtotal", PInt 10); ("shipping", PInt 3); ("total", PInt 99)].

End Samples.

(** *** What a request asks of a document *)

(** The JSON array of a reply; empty for any other answer. *)
Definition content_list (r : Response) : list pyval :=
  match r with
  | Reply _ (PList l) => l
  | _ => []
  end.

(** The [category] parameter, when given and not empty, names the category
    of the document. *)
Definition category_wanted (category : option string) (d : StoredDoc) : Prop :=
  match category with
  | None => True
  | Some c => c = "" \/ dict_get "category" (fields (body d)) = Some (PStr c)
  end.

(** The [q] parameter, when given and not empty, matches the name of the
    document as a case-insensitive regular expression. *)
Definition name_wanted (pcre : string -> string -> string -> bool)
           (q : option string) (d : StoredDoc) : Prop :=
  match q with
  | None => True
  | Some p =>
      p = ""
      \/ exists n, dict_get "name" (fields (body d)) = Some (PStr n)
                   /\ Regex.regex_match pcre p "i" n = true
  end.

(** The number of UTF-8 characters of a text. *)
Fixpoint count_chars (s : string) : nat :=
  match s with
  | EmptyString => O
  | String c r => if is_continuation c then count_chars r else S (count_chars r)
  end.

(** The toy that a request payload describes, field by field. *)
Definition Toy_of (p : CreateToy.t) : Toy.t :=
  Toy.Make (CreateToy.name p) (CreateToy.description p) (CreateToy.price p)
    (CreateToy.category p) (CreateToy.image p) (CreateToy.rating p) (CreateToy.in_stock p).

(** The fields on which the [Toy] schema is stricter than [CreateToy]. *)
Definition Toy_refusals (p : CreateToy.t) : list string :=
  (if ge 0 (CreateToy.price p) then [] else ["price"])
  ++ (if Toy.rating_ok (CreateToy.rating p) then [] else ["rating"]).

(** The items of a request payload as the [Order] schema reads them. *)
Definition items_of (lax : Lax) (p : CreateOrder.t) : option (list OrderItem.t) :=
  all_some (map (OrderItem.from_pyval lax) (map PDict (CreateOrder.items p))).

(** The fields on which the [Order] schema is stricter than [CreateOrder]. *)
Definition Order_refusals (validate_email : string -> option string) (lax : Lax)
           (p : CreateOrder.t) : list string :=
  missing "customer_email" (validate_email (CreateOrder.customer_email p))
  ++ missing "items" (items_of lax p)
  ++ (if ge 0 (CreateOrder.subtotal p) then [] else ["subtotal"])
  ++ (if ge 0 (CreateOrder.shipping p) then [] else ["shipping"])
  ++ (if ge 0 (CreateOrder.total p) then [] else ["total"]).

(** The bounds of [OrderItem]: price at least 0, quantity at least 1. *)
Definition item_ok (it : OrderItem.t) : bool :=
  (ge 0 (OrderItem.price it) && Z.leb 1 (OrderItem.quantity it))%bool.

(** The keys of a dict, in order. *)
Definition keys (d : dict) : list string := map fst d.

(* ================================================================== *)
(** ** Properties *)

Example ex_create_toy_empty_name :
  fst (POST_api_toys Samples.strict Samples.body_empty_name Samples.up)
  = Reply 201 (PDict [("_id", PStr "000000000000000000000000")]).
Proof. reflexivity. Qed.

Example ex_create_toy_no_name_store_down :
  fst (POST_api_toys Samples.strict Samples.body_no_name Samples.down) = RequestValidationError ["name"].
Proof. reflexivity. Qed.

Example ex_create_toy_negative_price :
  fst (POST_api_toys Samples.strict Samples.body_negative_price Samples.up)
  = Raised (ValidationError "Toy" ["price"]).
Proof. reflexivity. Qed.

Example ex_create_order_abc :
  fst (POST_api_orders Samples.email_syntax Samples.strict (Samples.order_body "abc" [Samples.item]) Samples.up)
  = Raised (ValidationError "Order" ["customer_email"]).
Proof. reflexivity. Qed.

Example ex_create_order :
  fst (POST_api_orders Samples.email_syntax Samples.strict (Samples.order_body "ada@example.org" [Samples.item]) Samples.up)
  = Reply 201 (PDict [("order_id", PStr "000000000000000000000000")]).
Proof. reflexivity. Qed.

Example ex_create_order_empty_store_down :
  fst (POST_api_orders Samples.email_syntax Samples.strict (Samples.order_body "ada@example.org" []) Samples.down)
  = Raised unavailable.
Proof. reflexivity. Qed.

Example ex_seed :
  fst (GET_api_seed Samples.up)
  = Reply 200 (PDict [("status", PStr "seeded"); ("inserted", PInt 3)]).
Proof. reflexivity. Qed.

Example ex_seed_twice :
  fst (GET_api_seed (snd (GET_api_seed Samples.up)))
  = Reply 200 (PDict [("status", PStr "already-seeded"); ("count", PInt 3)]).
Proof. reflexivity. Qed.

Example ex_list_toys_dot :
  exists j, fst (GET_api_toys (fun _ _ _ => false) None (Some ".") Samples.one_toy)
            = Reply 200 (PList [j]).
Proof. eexists. reflexivity. Qed.

Example ex_get_toy :
  fst (GET_api_toys_id "not-an-id" Samples.down) = Raised unavailable
  /\ fst (GET_api_toys_id "not-an-id" Samples.up) = Raised (HTTPException 400 "Invalid toy id")
  /\ fst (GET_api_toys_id "000000000000000000000001" Samples.one_toy)
     = Raised (HTTPException 404 "Toy not found").
Proof. repeat split; reflexivity. Qed.

(** *** Unfolding the monad *)

Ltac run :=
  unfold GET_api_toys, POST_api_toys, GET_api_toys_id, POST_api_orders, GET_api_seed,
    with_body, respond, list_toys, create_toy, get_toy, create_order, seed_sample_toys,
    construct, create_document, get_documents, find_one, count_documents, on_store,
    emit, db_is_None, try_except, raise, bind, ret, unavailable in *;
  cbn [db log fst snd] in *.

(** *** Listing *)

(** C7: whatever the parameters and the store, the array returned by the
    list endpoint holds at most 100 documents. *)
Theorem list_toys_at_most_100 :
  forall pcre (category q : option string) (w : World),
    exists toys,
      fst (GET_api_toys pcre category q w) = Reply 200 (PList toys)
      /\ (List.length toys <= 100)%nat.
Proof.
  intros pcre category q [[s|] l]; run.
  - eexists; split; [reflexivity|].
    rewrite length_map. unfold find_limit. apply firstn_le_length.
  - exists []. split; [reflexivity | cbn; lia].
Qed.

(** C10: a [category] or [q] parameter that is present but empty leaves the
    filter, and so the whole response, as if the parameter were absent. *)
Theorem list_toys_empty_parameter_is_absent :
  forall pcre (category q : option string) (w : World),
    filter_dict (Some "") q = filter_dict None q
    /\ filter_dict category (Some "") = filter_dict category None
    /\ GET_api_toys pcre (Some "") q w = GET_api_toys pcre None q w
    /\ GET_api_toys pcre category (Some "") w = GET_api_toys pcre category None w.
Proof.
  intros pcre category q w. repeat split; reflexivity.
Qed.

(** *** Fetching one toy *)

Lemma find_all_false {A : Type} (f : A -> bool) (l : list A) :
  (forall x, In x l -> f x = false) -> List.find f l = None.
Proof.
  induction l as [|a l IH]; intros H; cbn; [reflexivity|].
  rewrite (H a (or_introl eq_refl)). apply IH. intros x Hx. apply H. now right.
Qed.

(** C3, as the code orders the checks: an unavailable store is answered with
    503 whatever the id; with a store, an id that [ObjectId] rejects is
    answered with 400 and the world, its log of store calls included, is
    untouched; with a store and a well-formed id that no toy carries, the
    answer is 404 after the one [find_one] call. *)
Theorem get_toy_status_codes :
  forall (toy_id : string) (w : World),
    (db w = None -> GET_api_toys_id toy_id w = (Raised unavailable, w))
    /\ (db w <> None -> Bson.ObjectId_of_str toy_id = None ->
        GET_api_toys_id toy_id w = (Raised (HTTPException 400 "Invalid toy id"), w))
    /\ (forall obj_id, db w <> None -> Bson.ObjectId_of_str toy_id = Some obj_id ->
        (forall d, In d (documents "toy" w) -> Bson.eqb (_id d) obj_id = false) ->
        GET_api_toys_id toy_id w
        = (Raised (HTTPException 404 "Toy not found"),
           MkWorld (db w) (log w ++ [StoreCall "find_one" "toy"]))).
Proof.
  intros toy_id [[s|] l]; repeat split; cbn [db]; try congruence; try (intros; run; reflexivity).
  - intros _ E. run. now rewrite E.
  - intros obj_id _ E H. run. rewrite E. cbn [db log].
    unfold documents in H. cbn [db] in H.
    now rewrite (find_all_false _ _ H).
Qed.

Lemma get_toy_status_codes_witness :
  GET_api_toys_id "not-an-id" Samples.down = (Raised unavailable, Samples.down)
  /\ GET_api_toys_id "not-an-id" Samples.one_toy
     = (Raised (HTTPException 400 "Invalid toy id"), Samples.one_toy)
  /\ status_code_of (fst (GET_api_toys_id "000000000000000000000001" Samples.one_toy)) = 404%Z.
Proof.
  destruct (get_toy_status_codes "not-an-id" Samples.down) as [H1 _].
  destruct (get_toy_status_codes "not-an-id" Samples.one_toy) as [_ [H2 _]].
  destruct (get_toy_status_codes "000000000000000000000001" Samples.one_toy) as [_ [_ H3]].
  split; [apply H1; reflexivity|].
  split; [apply H2; [discriminate | reflexivity]|].
  rewrite (H3 (Bson.generate 1)); [reflexivity | discriminate | reflexivity |].
  intros d [<-|[]]. reflexivity.
Defined.

(** C3 as worded fails where its cases overlap: a malformed id sent while
    the store is unavailable is answered with 503, not 400. *)
Lemma get_toy_malformed_id_store_down :
  Bson.ObjectId_of_str "not-an-id" = None
  /\ fst (GET_api_toys_id "not-an-id" Samples.down) = Raised unavailable
  /\ status_code_of (fst (GET_api_toys_id "not-an-id" Samples.down)) <> 400%Z.
Proof. repeat split. cbn. discriminate. Qed.

(** *** Creating a toy *)

(** C2, as the framework and the handler order the steps: the body is first
    validated against [CreateToy], and a rejected body is answered with a
    request validation error whatever the state of the store; a body that
    [CreateToy] accepts, sent while the store is unavailable, is answered
    with 503 by the handler's first statement, before the [Toy] schema is
    applied and before any call to the store, whether or not the payload
    would pass the [Toy] schema. *)
Theorem create_toy_store_down :
  forall lax (body : pyval) (w : World),
    db w = None ->
    match CreateToy.from_body lax body with
    | inl errors =>
        POST_api_toys lax body w
        = (RequestValidationError errors, MkWorld None (log w ++ [Validated "CreateToy"]))
    | inr payload =>
        create_toy lax payload w = (inl unavailable, w)
        /\ POST_api_toys lax body w
           = (Raised unavailable, MkWorld None (log w ++ [Validated "CreateToy"]))
    end.
Proof.
  intros lax body [d l] E. cbn [db] in E. subst d.
  destruct (CreateToy.from_body lax body) as [errors|payload] eqn:P; run; rewrite P; auto.
Qed.

Lemma create_toy_store_down_witness :
  create_toy Samples.strict (CreateToy.Make "Bear" None (-1 # 2) "Plush" None (Some (45 # 10)) true) Samples.down
  = (inl unavailable, Samples.down)
  /\ POST_api_toys Samples.strict Samples.body_negative_price Samples.down
     = (Raised unavailable, MkWorld None [Validated "CreateToy"]).
Proof.
  exact (create_toy_store_down Samples.strict Samples.body_negative_price Samples.down eq_refl).
Defined.

(** C2 as worded fails: with the store unavailable, a body without [name] is
    answered with the 422 of request validation, not with 503. *)
Lemma create_toy_store_down_invalid_body :
  fst (POST_api_toys Samples.strict Samples.body_no_name Samples.down) = RequestValidationError ["name"]
  /\ status_code_of (fst (POST_api_toys Samples.strict Samples.body_no_name Samples.down)) <> 503%Z.
Proof. split; [reflexivity | cbn; discriminate]. Qed.

(** *** What an accepted body says about its fields *)

Ltac break_match :=
  match goal with
  | |- context [match ?x with _ => _ end] => destruct x eqn:?
  | H : context [match ?x with _ => _ end] |- _ => destruct x eqn:?
  end.

Lemma constrained_Some {A : Type} (ok : A -> bool) (o : option A) (a : A) :
  constrained ok o = Some a -> o = Some a /\ ok a = true.
Proof.
  destruct o as [x|]; cbn; [|discriminate].
  destruct (ok x) eqn:E; [|discriminate]. intros [= <-]. auto.
Qed.


Lemma CreateOrder_validate_inr lax (d : dict) (p : CreateOrder.t) :
  CreateOrder.validate lax d = inr p ->
  required as_str "customer_email" d = Some (CreateOrder.customer_email p)
  /\ required (as_list as_dict) "items" d = Some (CreateOrder.items p).
Proof.
  unfold CreateOrder.validate. intros H.
  repeat break_match; try discriminate.
  injection H as <-. cbn. auto.
Qed.

(** *** Creating an order with no items *)

(** C4, as the code orders the checks: a request whose [items] is the empty
    list never inserts anything; it is answered with a request validation
    error when [CreateOrder] rejects the body, with 503 when the body is
    accepted and the store is unavailable, and with 400 when the body is
    accepted and the store is available. *)
Theorem create_order_empty_items :
  forall validate_email lax (d : dict) (w : World),
    dict_get "items" d = Some (PList []) ->
    db (snd (POST_api_orders validate_email lax (PDict d) w)) = db w
    /\ match CreateOrder.from_body lax (PDict d), db w with
       | inl errors, _ =>
           fst (POST_api_orders validate_email lax (PDict d) w) = RequestValidationError errors
       | inr _, None =>
           fst (POST_api_orders validate_email lax (PDict d) w) = Raised unavailable
       | inr _, Some _ =>
           fst (POST_api_orders validate_email lax (PDict d) w)
           = Raised (HTTPException 400 "Order must contain at least one item")
       end.
Proof.
  intros ve lax d [s l] Hitems. run. cbn [CreateOrder.from_body].
  destruct (CreateOrder.validate lax d) as [errors|p] eqn:V; cbn; [auto|].
  destruct (CreateOrder_validate_inr _ _ _ V) as [_ Hi].
  unfold required in Hi. rewrite Hitems in Hi. cbn in Hi. injection Hi as <-.
  destruct s; cbn; auto.
Qed.

Lemma create_order_empty_items_witness :
  db (snd (POST_api_orders Samples.email_syntax Samples.strict
             (Samples.order_body "ada@example.org" []) Samples.one_toy))
  = db Samples.one_toy
  /\ fst (POST_api_orders Samples.email_syntax Samples.strict
            (Samples.order_body "ada@example.org" []) Samples.one_toy)
     = Raised (HTTPException 400 "Order must contain at least one item").
Proof.
  exact (create_order_empty_items Samples.email_syntax Samples.strict
           [("customer_name", PStr "Ada"); ("customer_email", PStr "ada@example.org");
            ("customer_address", PStr "1 Main St"); ("items", PList []);
            ("subtotal", PInt 10); ("shipping", PInt 3); ("total", PInt 99)]
           Samples.one_toy eq_refl).
Defined.

(** C4 as worded fails: with the store unavailable an order without items is
    answered with 503, and a body that [CreateOrder] rejects is answered with
    the 422 of request validation even though its [items] is empty. *)
Lemma create_order_empty_items_not_400 :
  fst (POST_api_orders Samples.email_syntax Samples.strict
         (Samples.order_body "ada@example.org" []) Samples.down)
  = Raised unavailable
  /\ status_code_of
       (fst (POST_api_orders Samples.email_syntax Samples.strict
               (Samples.order_body "ada@example.org" []) Samples.down)) <> 400%Z
  /\ fst (POST_api_orders Samples.email_syntax Samples.strict (PDict [("items", PList [])]) Samples.up)
     = RequestValidationError ["customer_name"; "customer_email"; "customer_address";
                               "subtotal"; "total"].
Proof. repeat split. cbn. discriminate. Qed.

(** *** Creating a toy that the schema refuses *)







(** *** Creating an order *)

Lemma missing_only (A : Type) (k x : string) (o : option A) :
  In x (missing k o) -> x = k /\ o = None.
Proof. destruct o; cbn; [tauto|]. intros [<-|[]]. auto. Qed.

Lemma CreateOrder_errors_spare_email lax (d : dict) (e : string) (errors : list string) :
  dict_get "customer_email" d = Some (PStr e) ->
  CreateOrder.validate lax d = inl errors ->
  ~ In "customer_email" errors.
Proof.
  intros He V I. unfold CreateOrder.validate in V.
  assert (R : required as_str "customer_email" d = Some e)
    by (unfold required; now rewrite He).
  rewrite R in V.
  repeat break_match; try discriminate; injection V as <-;
    repeat first
      [ apply in_app_or in I; destruct I as [I|I]
      | apply missing_only in I; destruct I as [I1 I2]; congruence
      | destruct I as [I|I]; [discriminate I|]
      | contradiction ].
Qed.

Lemma Order_validate_bad_email ve lax (p : CreateOrder.t) :
  ve (CreateOrder.customer_email p) = None ->
  exists errors,
    Order.validate ve lax (CreateOrder.model_dump p) = inl errors
    /\ In "customer_email" errors.
Proof.
  intros H. unfold Order.validate, CreateOrder.model_dump.
  cbn [required defaulted dict_get String.eqb Ascii.eqb Bool.eqb Order.as_email as_str].
  rewrite H.
  repeat break_match; eexists; (split; [reflexivity|]); cbn; tauto.
Qed.

(** An address that the validator refuses never leads to an inserted order.
    The request model takes any string for [customer_email], so request
    validation never names that field; the address is only checked by the
    [Order] schema inside the handler, after the two guards. *)
Theorem create_order_invalid_email :
  forall ve lax (d : dict) (e : string) (w : World),
    dict_get "customer_email" d = Some (PStr e) ->
    ve e = None ->
    db (snd (POST_api_orders ve lax (PDict d) w)) = db w
    /\ match CreateOrder.from_body lax (PDict d), db w with
       | inl errors, _ =>
           fst (POST_api_orders ve lax (PDict d) w) = RequestValidationError errors
           /\ ~ In "customer_email" errors
       | inr _, None =>
           fst (POST_api_orders ve lax (PDict d) w) = Raised unavailable
       | inr payload, Some _ =>
           if truthy_list (CreateOrder.items payload) then
             exists errors,
               fst (POST_api_orders ve lax (PDict d) w) = Raised (ValidationError "Order" errors)
               /\ In "customer_email" errors
           else
             fst (POST_api_orders ve lax (PDict d) w)
             = Raised (HTTPException 400 "Order must contain at least one item")
       end.
Proof.
  intros ve lax d e [s l] He Hbad. run. cbn [CreateOrder.from_body].
  destruct (CreateOrder.validate lax d) as [errors|p] eqn:V; cbn [fst snd db log].
  - repeat split. exact (CreateOrder_errors_spare_email lax d e errors He V).
  - destruct (CreateOrder_validate_inr _ _ _ V) as [Hp _].
    unfold required in Hp. rewrite He in Hp. cbn in Hp. injection Hp as Hp.
    destruct s as [s|]; cbn [fst snd db log]; [|auto].
    destruct (truthy_list (CreateOrder.items p)); cbn [negb fst snd db log]; [|auto].
    rewrite Hp in Hbad.
    destruct (Order_validate_bad_email ve lax p Hbad) as [errors [E I]].
    rewrite E. cbn [fst snd db log]. split; [reflexivity|]. exists errors. auto.
Qed.

Lemma create_order_invalid_email_witness :
  db (snd (POST_api_orders Samples.email_syntax Samples.strict
             (Samples.order_body "abc" [Samples.item]) Samples.one_toy))
  = db Samples.one_toy
  /\ exists errors,
       fst (POST_api_orders Samples.email_syntax Samples.strict
              (Samples.order_body "abc" [Samples.item]) Samples.one_toy)
       = Raised (ValidationError "Order" errors)
       /\ In "customer_email" errors.
Proof.
  exact (create_order_invalid_email Samples.email_syntax Samples.strict
           [("customer_name", PStr "Ada"); ("customer_email", PStr "abc");
            ("customer_address", PStr "1 Main St"); ("items", PList [Samples.item]);
            ("subtotal", PInt 10); ("shipping", PInt 3); ("total", PInt 99)]
           "abc" Samples.one_toy eq_refl eq_refl).
Defined.

(** C5, at the failing input: an otherwise valid order with the address
    "abc", sent while the store is available, is not persisted, but it is not
    answered with the 422 of a validation error either.  The body passes the
    request model, the [Order] constructor raises inside the handler, and
    nothing catches the error: the answer is a server error.  A body that
    request validation refuses, such as one without [customer_email], does
    get the 422. *)
Theorem create_order_invalid_email_escapes :
  Samples.email_syntax "abc" = None
  /\ fst (POST_api_orders Samples.email_syntax Samples.strict
            (Samples.order_body "abc" [Samples.item]) Samples.up)
     = Raised (ValidationError "Order" ["customer_email"])
  /\ status_code_of
       (fst (POST_api_orders Samples.email_syntax Samples.strict
               (Samples.order_body "abc" [Samples.item]) Samples.up)) = 500%Z
  /\ db (snd (POST_api_orders Samples.email_syntax Samples.strict
                (Samples.order_body "abc" [Samples.item]) Samples.up))
     = db Samples.up
  /\ status_code_of
       (fst (POST_api_orders Samples.email_syntax Samples.strict
               (PDict [("customer_name", PStr "Ada"); ("customer_address", PStr "1 Main St");
                       ("items", PList [Samples.item]); ("subtotal", PInt 10);
                       ("total", PInt 99)])
               Samples.up)) = 422%Z.
Proof. repeat split. Qed.

(** *** An order that the schema accepts *)

Lemma items_are_dicts lax (l : list pyval) (its : list OrderItem.t) :
  all_some (map (OrderItem.from_pyval lax) l) = Some its ->
  exists ds,
    all_some (map as_dict l) = Some ds
    /\ all_some (map (OrderItem.from_pyval lax) (map PDict ds)) = Some its.
Proof.
  revert its. induction l as [|v l IH]; intros its H.
  - exists []. cbn in *. auto.
  - cbn [map all_some] in H.
    destruct ((OrderItem.from_pyval lax) v) as [it|] eqn:Ev; [|discriminate].
    destruct (all_some (map (OrderItem.from_pyval lax) l)) as [its'|] eqn:El; [|discriminate].
    cbn in H. injection H as <-.
    destruct (IH its' eq_refl) as [ds [Hd Hi]].
    destruct v as [| | | | |?|dv]; try discriminate Ev.
    exists (dv :: ds). cbn [map all_some as_dict]. rewrite Hd.
    split; [reflexivity|]. now rewrite Ev, Hi.
Qed.

Lemma nullable_dump_opt_str (o : option string) :
  nullable as_str (dump_opt_str o) = Some o.
Proof. destruct o; reflexivity. Qed.

(** A body that passes [Order] also passes [CreateOrder], and the dump of the
    request model passes [Order] again with the same result. *)
Lemma Order_valid_body_goes_through ve lax (d : dict) (o : Order.t) :
  Order.validate ve lax d = inr o ->
  exists p,
    CreateOrder.validate lax d = inr p
    /\ Order.validate ve lax (CreateOrder.model_dump p) = inr o
    /\ (Order.items o <> [] -> CreateOrder.items p <> []).
Proof.
  unfold Order.validate. intros H.
  destruct (required as_str "customer_name" d) as [n|] eqn:En; [|discriminate].
  destruct (required (Order.as_email ve) "customer_email" d) as [e|] eqn:Ee; [|discriminate].
  destruct (required as_str "customer_address" d) as [a|] eqn:Ea; [|discriminate].
  destruct (required (as_list (OrderItem.from_pyval lax)) "items" d) as [its|] eqn:Ei; [|discriminate].
  destruct (constrained (ge 0) (required (as_float lax) "subtotal" d)) as [sub|] eqn:Es; [|discriminate].
  destruct (match dict_get "shipping" d with
            | Some v => constrained (ge 0) (as_float lax v)
            | None => Some 0%Q
            end) as [sh|] eqn:Eh; [|discriminate].
  destruct (constrained (ge 0) (required (as_float lax) "total" d)) as [tot|] eqn:Et; [|discriminate].
  destruct (defaulted None (nullable as_str) "notes" d) as [no|] eqn:Eo; [|discriminate].
  injection H as <-.
  apply constrained_Some in Es. destruct Es as [Es Gs].
  apply constrained_Some in Et. destruct Et as [Et Gt].
  (* the address *)
  assert (Xe : exists s, required as_str "customer_email" d = Some s /\ ve s = Some e).
  { unfold required in *. destruct (dict_get "customer_email" d) as [v|]; [|discriminate].
    destruct v; try discriminate Ee. eexists; split; [reflexivity | exact Ee]. }
  destruct Xe as [s [Es' Hs]].
  (* the items *)
  assert (Xi : exists ds, required (as_list as_dict) "items" d = Some ds
                          /\ all_some (map (OrderItem.from_pyval lax) (map PDict ds)) = Some its).
  { unfold required in *. destruct (dict_get "items" d) as [v|]; [|discriminate].
    destruct v; try discriminate Ei. cbn [as_list] in *. now apply items_are_dicts. }
  destruct Xi as [ds [Ed Hd]].
  (* shipping *)
  assert (Xh : defaulted 0%Q (as_float lax) "shipping" d = Some sh /\ ge 0 sh = true).
  { unfold defaulted. destruct (dict_get "shipping" d) as [v|].
    - now apply constrained_Some in Eh.
    - injection Eh as <-. split; reflexivity. }
  destruct Xh as [Eh' Gh].
  exists (CreateOrder.Make n s a ds sub sh tot no). split; [|split].
  - unfold CreateOrder.validate. now rewrite En, Es', Ea, Ed, Es, Eh', Et, Eo.
  - unfold Order.validate, CreateOrder.model_dump.
    cbn [required defaulted dict_get String.eqb Ascii.eqb Bool.eqb Order.as_email as_str
           as_float as_list constrained CreateOrder.customer_name CreateOrder.customer_email
           CreateOrder.customer_address CreateOrder.items CreateOrder.subtotal
           CreateOrder.shipping CreateOrder.total CreateOrder.notes].
    rewrite Hs, Hd, Gs, Gh, Gt, nullable_dump_opt_str. reflexivity.
  - cbn. intros Hne ->. cbn in Hd. injection Hd as <-. now apply Hne.
Qed.

(** C9, for a store that is available: a body that passes the [Order] schema,
    has at least one item, and asks for quantities that the store can keep,
    is answered with 201 and the new id, and the order is appended to the
    collection exactly as validated.  Nothing in the premises relates [total]
    to [subtotal] and [shipping], or the item prices to the toys in the
    store. *)
Theorem create_order_trusts_amounts :
  forall ve lax (d : dict) (o : Order.t) (w : World) (s : Store),
    db w = Some s ->
    Order.validate ve lax d = inr o ->
    Order.items o <> [] ->
    quantities_fit (Order.items o) = true ->
    POST_api_orders ve lax (PDict d) w
    = (Reply 201 (PDict [("order_id", PStr (Bson.str (Bson.generate (counter s))))]),
       MkWorld (Some (snd (insert_one "order" (DOrder o) s)))
         (log w ++ [Validated "CreateOrder"; Validated "Order"; StoreCall "insert_one" "order"])).
Proof.
  intros ve lax d o [s0 l] s E V Hne _. cbn [db] in E. subst s0.
  destruct (Order_valid_body_goes_through ve lax d o V) as [p [Vp [Vo Hp]]].
  specialize (Hp Hne).
  run. cbn [CreateOrder.from_body]. rewrite Vp. cbn [fst snd db log].
  destruct (CreateOrder.items p) as [|it its] eqn:Ei; [congruence|].
  cbn [truthy_list negb]. rewrite Vo. cbn [fst snd db log insert_one].
  rewrite <- !app_assoc. reflexivity.
Qed.

Lemma create_order_trusts_amounts_witness :
  POST_api_orders Samples.email_syntax Samples.strict
    (Samples.order_body "ada@example.org" [Samples.item]) Samples.one_toy
  = (Reply 201 (PDict [("order_id", PStr "000000000000000000000001")]),
     MkWorld
       (Some (snd (insert_one "order"
                     (DOrder (Order.Make "Ada" "ada@example.org" "1 Main St"
                                [OrderItem.Make "000000000000000000000000" "Bear" (1 # 1) 2 None]
                                (10 # 1) (3 # 1) (99 # 1) None))
                     (MkStore [("toy", [Stored (Bson.generate 0) (DToy Samples.bear)])] 1))))
       [Validated "CreateOrder"; Validated "Order"; StoreCall "insert_one" "order"])
  /\ ~ (99 # 1 == (10 # 1) + (3 # 1))%Q
  /\ ~ (Toy.price Samples.bear == 1 # 1)%Q.
Proof.
  split; [|split; intros H; discriminate H].
  apply (create_order_trusts_amounts Samples.email_syntax Samples.strict
           [("customer_name", PStr "Ada"); ("customer_email", PStr "ada@example.org");
            ("customer_address", PStr "1 Main St"); ("items", PList [Samples.item]);
            ("subtotal", PInt 10); ("shipping", PInt 3); ("total", PInt 99)]
           (Order.Make "Ada" "ada@example.org" "1 Main St"
              [OrderItem.Make "000000000000000000000000" "Bear" (1 # 1) 2 None]
              (10 # 1) (3 # 1) (99 # 1) None)
           Samples.one_toy
           (MkStore [("toy", [Stored (Bson.generate 0) (DToy Samples.bear)])] 1)).
  - reflexivity.
  - reflexivity.
  - discriminate.
  - reflexivity.
Defined.

(** C9 as worded fails: an order that passes the schema and has an item,
    sent while the store is unavailable, is answered with 503 and is not
    created. *)
Lemma create_order_valid_store_down :
  Order.validate Samples.email_syntax Samples.strict
    [("customer_name", PStr "Ada"); ("customer_email", PStr "ada@example.org");
     ("customer_address", PStr "1 Main St"); ("items", PList [Samples.item]);
     ("subtotal", PInt 10); ("shipping", PInt 3); ("total", PInt 99)]
  = inr (Order.Make "Ada" "ada@example.org" "1 Main St"
           [OrderItem.Make "000000000000000000000000" "Bear" (1 # 1) 2 None]
           (10 # 1) (3 # 1) (99 # 1) None)
  /\ POST_api_orders Samples.email_syntax Samples.strict
       (Samples.order_body "ada@example.org" [Samples.item]) Samples.down
     = (Raised unavailable, MkWorld None [Validated "CreateOrder"]).
Proof. split; reflexivity. Qed.

(** *** Seeding *)

Lemma lookup_append_to (name : string) (d : StoredDoc) (cs : list (string * list StoredDoc)) :
  lookup_collection name (append_to name d cs) = lookup_collection name cs ++ [d].
Proof.
  induction cs as [|[n docs] cs IH]; cbn.
  - now rewrite String.eqb_refl.
  - destruct (String.eqb name n) eqn:E; cbn; rewrite E; [reflexivity | exact IH].
Qed.

Lemma bodies_after_insert_all (name : string) (todo : list Document) (s : Store) :
  map body (collection name (insert_all name todo s))
  = map body (collection name s) ++ todo.
Proof.
  revert s. induction todo as [|data todo IH]; intros s; cbn.
  - now rewrite app_nil_r.
  - unfold insert_all in IH. rewrite IH. unfold collection at 1. cbn [collections].
    rewrite lookup_append_to, map_app, <- app_assoc. reflexivity.
Qed.

(** With a store every insert of the loop succeeds: the loop counts every
    sample and leaves them in the collection. *)
Lemma seed_loop_with_store (todo : list Document) (inserted : Z) (s : Store) (l : list Event) :
  seed_loop todo inserted (MkWorld (Some s) l)
  = (inr (inserted + Z.of_nat (List.length todo))%Z,
     MkWorld (Some (insert_all "toy" todo s))
       (l ++ repeat (StoreCall "insert_one" "toy") (List.length todo))).
Proof.
  revert inserted s l. induction todo as [|data todo IH]; intros inserted s l.
  - cbn. run. now rewrite Z.add_0_r, app_nil_r.
  - cbn [seed_loop]. run. cbn [insert_one fst snd]. rewrite IH.
    cbn [List.length repeat insert_all fold_left insert_one snd].
    rewrite <- app_assoc. cbn [app]. do 2 f_equal. lia.
Qed.

(** C8: on a store whose toy collection already holds documents the seed
    route inserts nothing and reports [already-seeded] with their number; on
    a store whose toy collection is empty it inserts the three samples, in
    order, and reports [inserted: 3]; called again, it reports
    [already-seeded] with count 3 and leaves the store as it is. *)
Theorem seed_is_idempotent :
  forall (w : World) (s : Store),
    db w = Some s ->
    ((0 < List.length (collection "toy" s))%nat ->
     GET_api_seed w
     = (Reply 200 (PDict [("status", PStr "already-seeded");
                          ("count", PInt (Z.of_nat (List.length (collection "toy" s))))]),
        MkWorld (Some s) (log w ++ [StoreCall "count_documents" "toy"])))
    /\ (collection "toy" s = [] ->
        fst (GET_api_seed w)
        = Reply 200 (PDict [("status", PStr "seeded"); ("inserted", PInt 3)])
        /\ map body (documents "toy" (snd (GET_api_seed w))) = samples
        /\ fst (GET_api_seed (snd (GET_api_seed w)))
           = Reply 200 (PDict [("status", PStr "already-seeded"); ("count", PInt 3)])
        /\ db (snd (GET_api_seed (snd (GET_api_seed w)))) = db (snd (GET_api_seed w))).
Proof.
  intros [s0 l] s E. cbn [db] in E. subst s0. split.
  - intros H. run. apply Nat.ltb_lt in H. now rewrite H.
  - intros H.
    assert (R : GET_api_seed (MkWorld (Some s) l)
                = (Reply 200 (PDict [("status", PStr "seeded"); ("inserted", PInt 3)]),
                   MkWorld (Some (insert_all "toy" samples s))
                     ((l ++ [StoreCall "count_documents" "toy"])
                      ++ repeat (StoreCall "insert_one" "toy") 3))).
    { run. rewrite H. cbn [List.length Nat.ltb Nat.leb].
      rewrite seed_loop_with_store. reflexivity. }
    assert (B : map body (collection "toy" (insert_all "toy" samples s)) = samples).
    { rewrite bodies_after_insert_all, H. reflexivity. }
    rewrite R. cbn [fst snd]. unfold documents. cbn [db].
    split; [reflexivity|]. split; [exact B|].
    assert (N : List.length (collection "toy" (insert_all "toy" samples s)) = 3%nat).
    { rewrite <- (length_map body), B. reflexivity. }
    run. rewrite N. cbn. split; reflexivity.
Qed.

Lemma seed_is_idempotent_witness :
  GET_api_seed Samples.one_toy
  = (Reply 200 (PDict [("status", PStr "already-seeded"); ("count", PInt 1)]),
     MkWorld (db Samples.one_toy) [StoreCall "count_documents" "toy"])
  /\ fst (GET_api_seed Samples.up)
     = Reply 200 (PDict [("status", PStr "seeded"); ("inserted", PInt 3)])
  /\ map body (documents "toy" (snd (GET_api_seed Samples.up))) = samples
  /\ fst (GET_api_seed (snd (GET_api_seed Samples.up)))
     = Reply 200 (PDict [("status", PStr "already-seeded"); ("count", PInt 3)])
  /\ db (snd (GET_api_seed (snd (GET_api_seed Samples.up))))
     = db (snd (GET_api_seed Samples.up)).
Proof.
  split.
  - apply (proj1 (seed_is_idempotent Samples.one_toy
                    (MkStore [("toy", [Stored (Bson.generate 0) (DToy Samples.bear)])] 1)
                    eq_refl)).
    cbn. lia.
  - exact (proj2 (seed_is_idempotent Samples.up Samples.empty_store eq_refl) eq_refl).
Defined.

(** *** The regular expression of the list filter *)

Lemma literal_atom (c : ascii) : Regex.literal c = true -> Regex.atom_of c = Some (Regex.Lit c).
Proof.
  unfold Regex.atom_of, Regex.literal, Regex.is_meta. intros H.
  destruct (N.eqb (code c) 46) eqn:E.
  - cbn [existsb] in H. rewrite E in H. cbn in H.
    rewrite !orb_true_r, andb_false_r in H. discriminate.
  - unfold Regex.literal, Regex.is_meta. now rewrite H.
Qed.

Lemma compile_literal (q : string) :
  forallb_str Regex.literal q = true -> Regex.compile q = Some (literal_atoms q).
Proof.
  induction q as [|c r IH]; cbn; [reflexivity|].
  intros H. apply andb_prop in H. destruct H as [Hc Hr].
  now rewrite (literal_atom c Hc), (IH Hr).
Qed.

Lemma match_here_literal (q s : string) :
  Regex.match_here (literal_atoms q) s = true
  <-> exists post, lower s = (lower q ++ post)%string.
Proof.
  revert s. induction q as [|c r IH]; intros s; cbn [literal_atoms lower].
  - split; [intros _; exists (lower s); reflexivity | intros _; now destruct s].
  - destruct s as [|a s']; cbn [Regex.match_here lower Regex.atom_matches].
    + split; [discriminate | intros [post H]; discriminate H].
    + split.
      * intros H. apply andb_prop in H. destruct H as [Ha Hr].
        apply Ascii.eqb_eq in Ha. apply IH in Hr. destruct Hr as [post Hp].
        exists post. cbn. now rewrite Ha, Hp.
      * intros [post H]. cbn in H. injection H as Ha Hs.
        apply andb_true_intro. split.
        -- apply Ascii.eqb_eq. now symmetry.
        -- apply IH. now exists post.
Qed.

Lemma search_literal (q s : string) :
  Regex.search (literal_atoms q) s = true <-> Regex.contains_ci q s.
Proof.
  unfold Regex.contains_ci. induction s as [|a s' IH]; cbn [Regex.search lower].
  - rewrite orb_false_r, match_here_literal. cbn [lower]. split.
    + intros [post H]. exists EmptyString, post. exact H.
    + intros [pre [post H]]. destruct pre; [now exists post | discriminate H].
  - split.
    + intros H. apply orb_prop in H. destruct H as [H|H].
      * apply match_here_literal in H. destruct H as [post H].
        exists EmptyString, post. exact H.
      * apply IH in H. destruct H as [pre [post H]].
        exists (String (lower_ascii a) pre), post. cbn. now rewrite H.
    + intros [pre [post H]]. apply orb_true_intro. destruct pre as [|b pre].
      * left. apply match_here_literal. exists post. exact H.
      * right. apply IH. cbn in H. injection H as _ H. now exists pre, post.
Qed.

(** On a pattern without metacharacters and a printable subject, the
    operator with option ["i"] is the case-insensitive substring test. *)
Lemma regex_match_literal pcre (q s : string) :
  forallb_str Regex.literal q = true ->
  forallb_str Regex.printable s = true ->
  (Regex.regex_match pcre q "i" s = true <-> Regex.contains_ci q s).
Proof.
  intros Hq Hs. unfold Regex.regex_match. cbn [String.eqb Ascii.eqb Bool.eqb andb].
  rewrite Hs, (compile_literal q Hq). apply search_literal.
Qed.

(** *** The list filter *)

Lemma In_firstn {A : Type} (n : nat) (l : list A) (x : A) : In x (firstn n l) -> In x l.
Proof.
  revert l. induction n as [|n IH]; intros [|a l]; cbn; try tauto.
  intros [H|H]; [now left | right; now apply IH].
Qed.

Lemma satisfies_equals (data : Document) pcre (k c : string) :
  satisfies pcre data (k, Equals c) = true ->
  dict_get k (fields data) = Some (PStr c).
Proof.
  unfold satisfies. cbn [fst snd].
  destruct (dict_get k (fields data)) as [v|]; [|discriminate].
  destruct v; try discriminate. intros H. apply String.eqb_eq in H. now subst.
Qed.

Lemma satisfies_regex (data : Document) pcre (k p o : string) :
  satisfies pcre data (k, RegexOf p o) = true ->
  exists n, dict_get k (fields data) = Some (PStr n) /\ Regex.regex_match pcre p o n = true.
Proof.
  unfold satisfies. cbn [fst snd].
  destruct (dict_get k (fields data)) as [v|]; [|discriminate].
  destruct v; try discriminate. intros H. eauto.
Qed.

Lemma filter_dict_category (category q : option string) (c : string) :
  category = Some c -> c <> "" -> In ("category", Equals c) (filter_dict category q).
Proof.
  intros -> Hc. apply String.eqb_neq in Hc. unfold filter_dict, truthy_str. rewrite Hc.
  cbn [negb setitem].
  destruct q as [p|]; [|now left].
  destruct (String.eqb p ""); cbn; auto.
Qed.

Lemma filter_dict_q (category q : option string) (p : string) :
  q = Some p -> p <> "" -> In ("name", RegexOf p "i") (filter_dict category q).
Proof.
  intros -> Hp. apply String.eqb_neq in Hp. unfold filter_dict, truthy_str. rewrite Hp.
  cbn [negb].
  destruct category as [c|]; [|now left].
  destruct (String.eqb c ""); cbn; auto.
Qed.

(** C6, as the code builds the filter: every document in the array that the
    list endpoint returns is a toy of the store that satisfies both filters
    that are given and non-empty.  Its [category] equals the parameter
    exactly, and its [name] is matched by [q], which the store reads as a
    regular expression without regard to case.  When [q] is made of printable
    ASCII characters none of which is a metacharacter, and the name is
    printable ASCII, that is to say that the name contains [q] as a
    case-insensitive substring. *)
Theorem list_toys_filters :
  forall pcre (category q : option string) (w : World) (j : pyval),
    In j (content_list (fst (GET_api_toys pcre category q w))) ->
    exists d,
      j = render d
      /\ In d (documents "toy" w)
      /\ (forall c, category = Some c -> c <> "" ->
          dict_get "category" (fields (body d)) = Some (PStr c))
      /\ (forall p, q = Some p -> p <> "" ->
          exists n,
            dict_get "name" (fields (body d)) = Some (PStr n)
            /\ Regex.regex_match pcre p "i" n = true
            /\ (forallb_str Regex.literal p = true ->
                forallb_str Regex.printable n = true ->
                Regex.contains_ci p n)).
Proof.
  intros pcre category q [[s|] l] j; run; cbn [content_list]; [|intros []].
  intros Hj. apply in_map_iff in Hj. destruct Hj as [d [<- Hd]].
  exists d. split; [reflexivity|].
  unfold find_limit in Hd. apply In_firstn, filter_In in Hd. destruct Hd as [Hin Hm].
  unfold matches in Hm. rewrite forallb_forall in Hm.
  split; [exact Hin|]. split.
  - intros c Ec Hc. apply (satisfies_equals _ pcre).
    apply Hm. now apply filter_dict_category.
  - intros p Ep Hp.
    destruct (satisfies_regex _ pcre _ _ _ (Hm _ (filter_dict_q category q p Ep Hp)))
      as [n [Hn Hr]].
    exists n. repeat split; trivial.
    intros Lp Pn. now apply (regex_match_literal pcre p n Lp Pn).
Qed.

Lemma list_toys_filters_witness :
  dict_get "category" (fields (DToy Samples.bear)) = Some (PStr "Plush")
  /\ Regex.contains_ci "bea" "Bear".
Proof.
  destruct (list_toys_filters (fun _ _ _ => false) (Some "Plush") (Some "bea") Samples.one_toy
              (render (Stored (Bson.generate 0) (DToy Samples.bear))) (or_introl eq_refl))
    as [d [_ [Hin [Hc Hq]]]].
  destruct Hin as [<-|[]].
  split.
  - apply (Hc "Plush" eq_refl). discriminate.
  - assert (Hne : "bea" <> "") by discriminate.
    destruct (Hq "bea" eq_refl Hne) as [n [Hn [_ Hl]]].
    injection Hn as <-. apply Hl; reflexivity.
Defined.

(** C6 as worded fails: [q] is a pattern, not a text to be found.  The query
    ["."] returns the toy named ["Bear"], whose name does not contain a
    dot. *)
Lemma list_toys_dot_matches_any_name :
  fst (GET_api_toys (fun _ _ _ => false) None (Some ".") Samples.one_toy)
  = Reply 200 (PList [render (Stored (Bson.generate 0) (DToy Samples.bear))])
  /\ dict_get "name" (fields (DToy Samples.bear)) = Some (PStr "Bear")
  /\ ~ Regex.contains_ci "." "Bear".
Proof.
  split; [reflexivity|]. split; [reflexivity|].
  intros [pre [post H]]. cbn in H.
  repeat (destruct pre as [|? pre]; cbn in H; [discriminate H | injection H as _ H]).
  destruct pre; discriminate H.
Qed.

(* ================================================================== *)
(** ** Further properties of the handlers *)

(** *** Identifiers *)

Lemma hex_of_byte (b : byte) :
  Bson.is_space (Bson.hex_digit (N.div (Byte.to_N b) 16)) = false
  /\ Bson.hex_value (Bson.hex_digit (N.div (Byte.to_N b) 16)) = Some (N.div (Byte.to_N b) 16)
  /\ Bson.hex_value (Bson.hex_digit (N.modulo (Byte.to_N b) 16))
     = Some (N.modulo (Byte.to_N b) 16)
  /\ Bson.byte_of_N (16 * N.div (Byte.to_N b) 16 + N.modulo (Byte.to_N b) 16) = b.
Proof. destruct b; vm_compute; repeat split. Qed.

Lemma fromhex_hexlify (bs : list byte) : Bson.fromhex (Bson.hexlify bs) = Some bs.
Proof.
  induction bs as [|b bs IH]; [reflexivity|].
  destruct (hex_of_byte b) as [Hs [Hh [Hl Hb]]].
  cbn [Bson.hexlify Bson.fromhex]. rewrite Hs, Hh, Hl, IH, Hb. reflexivity.
Qed.

Lemma length_hexlify (bs : list byte) :
  String.length (Bson.hexlify bs) = (2 * List.length bs)%nat.
Proof. induction bs as [|b bs IH]; cbn [Bson.hexlify String.length List.length]; lia. Qed.

Lemma length_be_bytes (len : nat) (n : N) (acc : list byte) :
  List.length (Bson.be_bytes len n acc) = (len + List.length acc)%nat.
Proof.
  revert n acc. induction len as [|len IH]; intros n acc; cbn [Bson.be_bytes].
  - reflexivity.
  - rewrite IH. cbn [List.length]. lia.
Qed.

(** The text of a generated identifier is read back as that identifier. *)
Lemma ObjectId_of_str_generate (n : N) :
  Bson.ObjectId_of_str (Bson.str (Bson.generate n)) = Some (Bson.generate n).
Proof.
  unfold Bson.ObjectId_of_str, Bson.str, Bson.generate. cbn [Bson.binary].
  rewrite length_hexlify, length_be_bytes, fromhex_hexlify. reflexivity.
Qed.

Lemma bytes_eqb_refl (a : list byte) : Bson.bytes_eqb a a = true.
Proof.
  induction a as [|x a IH]; cbn; [reflexivity|].
  unfold Bson.byte_eqb. now rewrite N.eqb_refl, IH.
Qed.

Lemma lower_ascii_hex (c : ascii) :
  Bson.hex_value (lower_ascii c) = Bson.hex_value c
  /\ Bson.is_space (lower_ascii c) = Bson.is_space c.
Proof. destruct c as [[] [] [] [] [] [] [] []]; vm_compute; split; reflexivity. Qed.

Lemma length_lower (s : string) : String.length (lower s) = String.length s.
Proof. induction s as [|c r IH]; cbn; [reflexivity | now rewrite IH]. Qed.

Lemma fromhex_two (c a : ascii) (r : string) :
  Bson.fromhex (String c (String a r))
  = if Bson.is_space c then Bson.fromhex (String a r)
    else
      match Bson.hex_value c, Bson.hex_value a, Bson.fromhex r with
      | Some h, Some l, Some bs => Some (Bson.byte_of_N (16 * h + l) :: bs)
      | _, _, _ => None
      end.
Proof.
  change (Bson.fromhex (String c (String a r)))
    with (if Bson.is_space c then Bson.fromhex (String a r)
          else
            match Bson.hex_value c with
            | Some h =>
                match Bson.hex_value a, Bson.fromhex r with
                | Some l, Some bs => Some (Bson.byte_of_N (16 * h + l) :: bs)
                | _, _ => None
                end
            | None => None
            end).
  destruct (Bson.is_space c), (Bson.hex_value c), (Bson.hex_value a), (Bson.fromhex r);
    reflexivity.
Qed.

Lemma fromhex_lower (s : string) :
  Bson.fromhex (lower s) = Bson.fromhex s
  /\ forall c, Bson.fromhex (lower (String c s)) = Bson.fromhex (String c s).
Proof.
  induction s as [|a r [IH1 IH2]].
  - split; [reflexivity|]. intros c. cbn [lower Bson.fromhex].
    destruct (lower_ascii_hex c) as [Hh Hs]. now rewrite Hh, Hs.
  - split; [apply IH2|]. intros c.
    destruct (lower_ascii_hex c) as [Hh Hs]. destruct (lower_ascii_hex a) as [Hh' _].
    change (lower (String c (String a r)))
      with (String (lower_ascii c) (String (lower_ascii a) (lower r))).
    rewrite !fromhex_two, Hh, Hs, Hh', IH1.
    destruct (Bson.is_space c); [exact (IH2 a)|reflexivity].
Qed.

Lemma ObjectId_of_str_lower (s : string) :
  Bson.ObjectId_of_str (lower s) = Bson.ObjectId_of_str s.
Proof.
  unfold Bson.ObjectId_of_str. now rewrite length_lower, (proj1 (fromhex_lower s)).
Qed.

(** A character that is neither a hexadecimal digit nor white space makes
    the whole text undecodable. *)
Lemma fromhex_bad_char (s : string) :
  (forall c, In c (list_ascii_of_string s) ->
             Bson.hex_value c = None -> Bson.is_space c = false ->
             Bson.fromhex s = None)
  /\ forall a c, In c (list_ascii_of_string s) ->
                 Bson.hex_value c = None -> Bson.is_space c = false ->
                 Bson.fromhex (String a s) = None.
Proof.
  induction s as [|b r [IH1 IH2]].
  - split; intros; cbn in *; contradiction.
  - split.
    + intros c Hin Hh Hs. cbn [list_ascii_of_string] in Hin. destruct Hin as [<-|Hin].
      * cbn [Bson.fromhex]. now rewrite Hs, Hh.
      * exact (IH2 b c Hin Hh Hs).
    + intros a c Hin Hh Hs. cbn [list_ascii_of_string] in Hin. rewrite fromhex_two.
      destruct Hin as [<-|Hin].
      * rewrite Hh. destruct (Bson.is_space a).
        -- cbn [Bson.fromhex]. now rewrite Hs, Hh.
        -- now destruct (Bson.hex_value a).
      * rewrite (IH1 c Hin Hh Hs), (IH2 b c Hin Hh Hs).
        destruct (Bson.is_space a); [reflexivity|].
        destruct (Bson.hex_value a); [|reflexivity]. now destruct (Bson.hex_value b).
Qed.

(** *** Fetching one toy, continued *)

Lemma find_first {A : Type} (f : A -> bool) (before : list A) (d : A) (after : list A) :
  (forall x, In x before -> f x = false) -> f d = true ->
  List.find f (before ++ d :: after) = Some d.
Proof.
  induction before as [|b before IH]; intros Hb Hd; cbn.
  - now rewrite Hd.
  - rewrite (Hb b (or_introl eq_refl)). apply IH; [|exact Hd].
    intros x Hx. apply Hb. now right.
Qed.

(** With a store, a well-formed id is answered with the first document of
    the toy collection that carries it: status 200, the fields of the
    document as stored, and [_id] as the hexadecimal text of the identifier.
    The store is left as it was, after one [find_one]. *)
Theorem get_toy_found :
  forall (toy_id : string) (w : World) (s : Store) (obj_id : Bson.ObjectId)
         (before : list StoredDoc) (d : StoredDoc) (after : list StoredDoc),
    db w = Some s ->
    Bson.ObjectId_of_str toy_id = Some obj_id ->
    collection "toy" s = before ++ d :: after ->
    (forall x, In x before -> Bson.eqb (_id x) obj_id = false) ->
    Bson.eqb (_id d) obj_id = true ->
    GET_api_toys_id toy_id w
    = (Reply 200 (PDict (("_id", PStr (Bson.str (_id d))) :: fields (body d))),
       MkWorld (Some s) (log w ++ [StoreCall "find_one" "toy"])).
Proof.
  intros toy_id [s0 l] s obj_id before d after E P C Hb Hd. cbn [db] in E. subst s0.
  run. rewrite P. cbn [db log]. rewrite C, (find_first _ before d after Hb Hd).
  reflexivity.
Qed.

Lemma get_toy_found_witness :
  GET_api_toys_id "000000000000000000000000" Samples.one_toy
  = (Reply 200 (PDict (("_id", PStr "000000000000000000000000")
                       :: Toy.model_dump Samples.bear)),
     MkWorld (db Samples.one_toy) [StoreCall "find_one" "toy"]).
Proof.
  apply (get_toy_found "000000000000000000000000" Samples.one_toy
           (MkStore [("toy", [Stored (Bson.generate 0) (DToy Samples.bear)])] 1)
           (Bson.generate 0) [] (Stored (Bson.generate 0) (DToy Samples.bear)) []);
    try reflexivity.
  intros x [].
Defined.

(** The fetch route never changes the store; it answers 503 exactly when
    there is no store, and 400 exactly when there is a store and [ObjectId]
    refuses the id. *)
Theorem get_toy_answers :
  forall (toy_id : string) (w : World),
    db (snd (GET_api_toys_id toy_id w)) = db w
    /\ (status_code_of (fst (GET_api_toys_id toy_id w)) = 503%Z <-> db w = None)
    /\ (status_code_of (fst (GET_api_toys_id toy_id w)) = 400%Z
        <-> db w <> None /\ Bson.ObjectId_of_str toy_id = None).
Proof.
  intros toy_id [[s|] l]; run;
    [destruct (Bson.ObjectId_of_str toy_id) as [obj_id|]; cbn [db log fst snd];
     [destruct (List.find _ _)|]|];
    cbn; repeat split; intros;
    repeat match goal with H : _ /\ _ |- _ => destruct H end;
    try discriminate; try congruence; tauto.
Qed.

Lemma get_toy_answers_witness :
  status_code_of (fst (GET_api_toys_id "not-an-id" Samples.up)) = 400%Z
  /\ status_code_of (fst (GET_api_toys_id "not-an-id" Samples.down)) = 503%Z.
Proof.
  split.
  - apply (proj2 (proj2 (get_toy_answers "not-an-id" Samples.up))).
    split; [discriminate | reflexivity].
  - apply (proj1 (proj2 (get_toy_answers "not-an-id" Samples.down))). reflexivity.
Defined.

(** With a store, an id that does not have 24 characters, or that holds a
    character that is neither a hexadecimal digit nor white space, is
    answered with 400 and nothing else happens. *)
Theorem get_toy_malformed_id :
  forall (toy_id : string) (w : World),
    db w <> None ->
    (String.length toy_id <> 24%nat
     \/ exists c, In c (list_ascii_of_string toy_id)
                  /\ Bson.hex_value c = None /\ Bson.is_space c = false) ->
    GET_api_toys_id toy_id w = (Raised (HTTPException 400 "Invalid toy id"), w).
Proof.
  intros toy_id [[s|] l] Hdb Hbad; [|now elim Hdb].
  assert (E : Bson.ObjectId_of_str toy_id = None).
  { unfold Bson.ObjectId_of_str. destruct Hbad as [Hlen|[c [Hin [Hh Hs]]]].
    - apply Nat.eqb_neq in Hlen. now rewrite Hlen.
    - rewrite (proj1 (fromhex_bad_char toy_id) c Hin Hh Hs).
      now destruct (String.length toy_id =? 24)%nat. }
  run. now rewrite E.
Qed.

Lemma get_toy_malformed_id_witness :
  GET_api_toys_id "65a0f1e2d3c4b5a69788776" Samples.up
  = (Raised (HTTPException 400 "Invalid toy id"), Samples.up)
  /\ GET_api_toys_id "65a0f1e2d3c4b5a69788776g" Samples.up
     = (Raised (HTTPException 400 "Invalid toy id"), Samples.up).
Proof.
  split.
  - apply get_toy_malformed_id; [discriminate|]. left. discriminate.
  - apply get_toy_malformed_id; [discriminate|]. right. exists "g"%char.
    split; [|split; reflexivity]. cbn. tauto.
Defined.

(** The fetch route reads the id without regard to the case of its
    hexadecimal digits. *)
Theorem get_toy_id_case_insensitive :
  forall (toy_id : string) (w : World),
    GET_api_toys_id (lower toy_id) w = GET_api_toys_id toy_id w.
Proof.
  intros toy_id w. unfold GET_api_toys_id, get_toy. now rewrite ObjectId_of_str_lower.
Qed.

(** *** Listing, continued *)

Lemma filter_all {A : Type} (f : A -> bool) (l : list A) :
  (forall x, In x l -> f x = true) -> filter f l = l.
Proof.
  induction l as [|a l IH]; intros H; cbn; [reflexivity|].
  rewrite (H a (or_introl eq_refl)). f_equal. apply IH. intros x Hx. apply H. now right.
Qed.

Lemma length_filter_le {A : Type} (f : A -> bool) (l : list A) :
  (List.length (filter f l) <= List.length l)%nat.
Proof. induction l as [|a l IH]; cbn; [lia|]. destruct (f a); cbn; lia. Qed.

(** Without a filter (each parameter absent or empty) the list route returns
    the first 100 documents of the toy collection, in the order of the
    collection, and leaves the store as it was. *)
Theorem list_toys_unfiltered :
  forall pcre (category q : option string) (w : World),
    (category = None \/ category = Some "") ->
    (q = None \/ q = Some "") ->
    fst (GET_api_toys pcre category q w)
    = Reply 200 (PList (map render (firstn 100 (documents "toy" w))))
    /\ db (snd (GET_api_toys pcre category q w)) = db w.
Proof.
  intros pcre category q [[s|] l] Hc Hq.
  - assert (F : filter_dict category q = []).
    { destruct Hc as [->| ->], Hq as [->| ->]; reflexivity. }
    run. rewrite F. unfold find_limit, documents. cbn [db].
    rewrite filter_all; [split; reflexivity|]. intros x _. reflexivity.
  - run. split; reflexivity.
Qed.

Lemma list_toys_unfiltered_witness :
  fst (GET_api_toys (fun _ _ _ => false) (Some "") None Samples.one_toy)
  = Reply 200 (PList [render (Stored (Bson.generate 0) (DToy Samples.bear))]).
Proof.
  apply (proj1 (list_toys_unfiltered (fun _ _ _ => false) (Some "") None Samples.one_toy
                  (or_intror eq_refl) (or_introl eq_refl))).
Defined.

Lemma matches_wanted pcre (category q : option string) (d : StoredDoc) :
  category_wanted category d -> name_wanted pcre q d ->
  matches pcre (filter_dict category q) d = true.
Proof.
  intros Hc Hq. unfold matches.
  assert (C : forall c, category = Some c -> String.eqb c "" = false ->
                        satisfies pcre (body d) ("category", Equals c) = true).
  { intros c -> E. cbn in Hc. destruct Hc as [->|Hc]; [discriminate E|].
    unfold satisfies. cbn [fst snd]. rewrite Hc. apply String.eqb_refl. }
  assert (Q : forall p, q = Some p -> String.eqb p "" = false ->
                        satisfies pcre (body d) ("name", RegexOf p "i") = true).
  { intros p -> E. cbn in Hq. destruct Hq as [->|[n [Hn Hm]]]; [discriminate E|].
    unfold satisfies. cbn [fst snd]. now rewrite Hn. }
  unfold filter_dict, truthy_str.
  destruct category as [c|], q as [p|];
    try destruct (String.eqb c "") eqn:Ec; try destruct (String.eqb p "") eqn:Ep;
    cbn [negb setitem String.eqb Ascii.eqb Bool.eqb forallb];
    rewrite ?(C c eq_refl Ec), ?(Q p eq_refl Ep); reflexivity.
Qed.

(** When the toy collection holds at most 100 documents, the list route
    leaves out none that is asked for: every toy whose category is the
    [category] parameter and whose name is matched by [q] is in the array. *)
Theorem list_toys_complete :
  forall pcre (category q : option string) (w : World) (d : StoredDoc),
    (List.length (documents "toy" w) <= 100)%nat ->
    In d (documents "toy" w) ->
    category_wanted category d ->
    name_wanted pcre q d ->
    In (render d) (content_list (fst (GET_api_toys pcre category q w))).
Proof.
  intros pcre category q [[s|] l] d Hlen Hin Hc Hq; unfold documents in *; cbn [db] in *;
    [|contradiction].
  run. cbn [content_list]. apply in_map. unfold find_limit.
  rewrite firstn_all2.
  - apply filter_In. split; [exact Hin | now apply matches_wanted].
  - etransitivity; [apply length_filter_le | exact Hlen].
Qed.

Lemma list_toys_complete_witness :
  In (render (Stored (Bson.generate 0) (DToy Samples.bear)))
     (content_list (fst (GET_api_toys (fun _ _ _ => false) (Some "Plush") (Some "EAR")
                           Samples.one_toy))).
Proof.
  apply list_toys_complete.
  - cbn. lia.
  - left. reflexivity.
  - right. reflexivity.
  - right. exists "Bear". split; reflexivity.
Defined.

(** *** Creating a toy, continued *)

Lemma nullable_dump_opt_float lax (o : option Q) :
  nullable (as_float lax) (dump_opt_float o) = Some o.
Proof. destruct o; reflexivity. Qed.

(** What the [Toy] constructor makes of a dumped request payload. *)
Lemma Toy_validate_dump lax (p : CreateToy.t) :
  Toy.validate lax (CreateToy.model_dump p)
  = if (ge 0 (CreateToy.price p) && Toy.rating_ok (CreateToy.rating p))%bool
    then inr (Toy_of p)
    else inl (Toy_refusals p).
Proof.
  unfold Toy.validate, CreateToy.model_dump, Toy_refusals, Toy_of.
  cbn [required defaulted dict_get String.eqb Ascii.eqb Bool.eqb as_float as_str as_bool
         constrained].
  rewrite !nullable_dump_opt_str, nullable_dump_opt_float. cbn [constrained].
  destruct (ge 0 (CreateToy.price p)), (Toy.rating_ok (CreateToy.rating p)); reflexivity.
Qed.

Lemma lookup_append_to_other (name other : string) (d : StoredDoc)
      (cs : list (string * list StoredDoc)) :
  other <> name ->
  lookup_collection other (append_to name d cs) = lookup_collection other cs.
Proof.
  intros Hne. apply String.eqb_neq in Hne.
  induction cs as [|[n docs] cs IH]; cbn.
  - now rewrite Hne.
  - destruct (String.eqb name n) eqn:E; cbn.
    + apply String.eqb_eq in E. subst n. now rewrite Hne.
    + destruct (String.eqb other n); [reflexivity | exact IH].
Qed.

Lemma post_toys_run lax (body : pyval) (p : CreateToy.t) (s : Store) (l : list Event) :
  CreateToy.from_body lax body = inr p ->
  POST_api_toys lax body (MkWorld (Some s) l)
  = if (ge 0 (CreateToy.price p) && Toy.rating_ok (CreateToy.rating p))%bool
    then (Reply 201 (PDict [("_id", PStr (Bson.str (Bson.generate (counter s))))]),
          MkWorld (Some (snd (insert_one "toy" (DToy (Toy_of p)) s)))
            (l ++ [Validated "CreateToy"; Validated "Toy"; StoreCall "insert_one" "toy"]))
    else (Raised (ValidationError "Toy" (Toy_refusals p)),
          MkWorld (Some s) (l ++ [Validated "CreateToy"; Validated "Toy"])).
Proof.
  intros P. run. rewrite P. cbn [fst snd db log]. rewrite Toy_validate_dump.
  destruct (ge 0 (CreateToy.price p) && Toy.rating_ok (CreateToy.rating p))%bool;
    cbn [fst snd db log insert_one]; rewrite <- !app_assoc; reflexivity.
Qed.

(** With a store, a body that [CreateToy] accepts, with a finite price and a
    finite or null rating, is created exactly when its price is not negative
    and its rating is null or between 0 and 5.  Then
    the answer is 201 with the new id, and the toy, with the values of the
    payload, is appended to the collection.  Otherwise the [Toy] validation
    error names exactly the fields among [price] and [rating] that are out
    of range, and the store is left as it was. *)
Theorem create_toy_outcome :
  forall lax (body : pyval) (p : CreateToy.t) (w : World) (s : Store),
    db w = Some s ->
    CreateToy.from_body lax body = inr p ->
    if (ge 0 (CreateToy.price p) && Toy.rating_ok (CreateToy.rating p))%bool
    then
      fst (POST_api_toys lax body w)
      = Reply 201 (PDict [("_id", PStr (Bson.str (Bson.generate (counter s))))])
      /\ documents "toy" (snd (POST_api_toys lax body w))
         = documents "toy" w ++ [Stored (Bson.generate (counter s)) (DToy (Toy_of p))]
    else
      fst (POST_api_toys lax body w) = Raised (ValidationError "Toy" (Toy_refusals p))
      /\ db (snd (POST_api_toys lax body w)) = db w.
Proof.
  intros lax body p [s0 l] s E P. cbn [db] in E. subst s0.
  rewrite (post_toys_run lax body p s l P).
  destruct (ge 0 (CreateToy.price p) && Toy.rating_ok (CreateToy.rating p))%bool;
    cbn [fst snd]; split; try reflexivity.
  unfold documents, insert_one, collection. cbn [db snd collections].
  apply lookup_append_to.
Qed.

Lemma create_toy_outcome_witness :
  fst (POST_api_toys Samples.strict
         (PDict [("name", PStr "Bear"); ("price", PInt 5); ("category", PStr "Plush");
                 ("rating", PInt 6)]) Samples.up)
  = Raised (ValidationError "Toy" ["rating"])
  /\ db (snd (POST_api_toys Samples.strict
                (PDict [("name", PStr "Bear"); ("price", PInt 5); ("category", PStr "Plush");
                        ("rating", PInt 6)]) Samples.up))
     = db Samples.up.
Proof.
  exact (create_toy_outcome Samples.strict
           (PDict [("name", PStr "Bear"); ("price", PInt 5); ("category", PStr "Plush");
                   ("rating", PInt 6)])
           (CreateToy.Make "Bear" None (5 # 1) "Plush" None (Some (6 # 1)) true)
           Samples.up Samples.empty_store eq_refl eq_refl).
Defined.

(** A body that passes the [Toy] schema passes [CreateToy], and the payload
    describes the same toy, within the bounds of the schema. *)
Lemma Toy_valid_body_goes_through lax (d : dict) (t : Toy.t) :
  Toy.validate lax d = inr t ->
  exists p,
    CreateToy.validate lax d = inr p
    /\ Toy_of p = t
    /\ (ge 0 (CreateToy.price p) && Toy.rating_ok (CreateToy.rating p))%bool = true.
Proof.
  unfold Toy.validate. intros H.
  destruct (required as_str "name" d) as [n|] eqn:En; [|discriminate].
  destruct (defaulted None (nullable as_str) "description" d) as [de|] eqn:Ed; [|discriminate].
  destruct (constrained (ge 0) (required (as_float lax) "price" d)) as [x|] eqn:Ep;
    [|discriminate].
  destruct (required as_str "category" d) as [c|] eqn:Ec; [|discriminate].
  destruct (defaulted None (nullable as_str) "image" d) as [im|] eqn:Ei; [|discriminate].
  destruct (match dict_get "rating" d with
            | Some v => constrained Toy.rating_ok (nullable (as_float lax) v)
            | None => Some (Some (45 # 10))
            end) as [r|] eqn:Er; [|discriminate].
  destruct (defaulted true (as_bool lax) "in_stock" d) as [st|] eqn:Es; [|discriminate].
  injection H as <-.
  apply constrained_Some in Ep. destruct Ep as [Ep Gp].
  assert (Xr : defaulted (Some (45 # 10)) (nullable (as_float lax)) "rating" d = Some r
               /\ Toy.rating_ok r = true).
  { unfold defaulted. destruct (dict_get "rating" d) as [v|].
    - now apply constrained_Some in Er.
    - injection Er as <-. split; reflexivity. }
  destruct Xr as [Er' Gr].
  exists (CreateToy.Make n de x c im r st). split; [|split].
  - unfold CreateToy.validate. now rewrite En, Ed, Ep, Ec, Ei, Er', Es.
  - reflexivity.
  - cbn. now rewrite Gp, Gr.
Qed.

(** A toy that was just created can be fetched: when the body passes the
    [Toy] schema and the identifier the store draws is not yet in the
    collection, creation answers 201 with the id, and fetching that id from
    the resulting store answers 200 with the validated toy and the same
    id. *)
Theorem create_then_get_toy :
  forall lax (d : dict) (t : Toy.t) (w : World) (s : Store),
    db w = Some s ->
    Toy.validate lax d = inr t ->
    (forall x, In x (collection "toy" s) ->
               Bson.eqb (_id x) (Bson.generate (counter s)) = false) ->
    fst (POST_api_toys lax (PDict d) w)
    = Reply 201 (PDict [("_id", PStr (Bson.str (Bson.generate (counter s))))])
    /\ fst (GET_api_toys_id (Bson.str (Bson.generate (counter s)))
              (snd (POST_api_toys lax (PDict d) w)))
       = Reply 200 (PDict (("_id", PStr (Bson.str (Bson.generate (counter s))))
                           :: Toy.model_dump t)).
Proof.
  intros lax d t [s0 l] s E V Hfresh. cbn [db] in E. subst s0.
  destruct (Toy_valid_body_goes_through lax d t V) as [p [Vp [Ht Hok]]].
  rewrite (post_toys_run lax (PDict d) p s l Vp), Hok. cbn [fst snd].
  split; [reflexivity|].
  run. rewrite ObjectId_of_str_generate. cbn [db log fst snd].
  unfold insert_one, collection. cbn [snd collections]. rewrite lookup_append_to.
  rewrite (find_first _ (lookup_collection "toy" (collections s))
             (Stored (Bson.generate (counter s)) (DToy (Toy_of p))) []).
  - cbn [fst]. unfold render. cbn [_id body fields]. now rewrite Ht.
  - exact Hfresh.
  - apply bytes_eqb_refl.
Qed.

Lemma create_then_get_toy_witness :
  fst (GET_api_toys_id "000000000000000000000001"
         (snd (POST_api_toys Samples.strict Samples.body_empty_name Samples.one_toy)))
  = Reply 200 (PDict (("_id", PStr "000000000000000000000001")
                      :: Toy.model_dump
                           (Toy.Make "" None (5 # 1) "Plush" None (Some (45 # 10)) true))).
Proof.
  apply (create_then_get_toy Samples.strict
           [("name", PStr ""); ("price", PInt 5); ("category", PStr "Plush")]
           (Toy.Make "" None (5 # 1) "Plush" None (Some (45 # 10)) true)
           Samples.one_toy
           (MkStore [("toy", [Stored (Bson.generate 0) (DToy Samples.bear)])] 1)
           eq_refl eq_refl).
  intros x [<-|[]]. reflexivity.
Defined.



(** Creating a toy leaves the documents already stored where they are: at
    most one document is appended to the toy collection, and no other
    collection changes. *)
Theorem create_toy_only_appends :
  forall lax (body : pyval) (w : World) (name : string),
  exists added,
    documents name (snd (POST_api_toys lax body w)) = documents name w ++ added
    /\ (List.length added <= 1)%nat
    /\ (name <> "toy" -> added = []).
Proof.
  intros lax body [[s|] l] name.
  - destruct (CreateToy.from_body lax body) as [errors|p] eqn:P.
    + exists []. run. rewrite P. cbn. rewrite app_nil_r. auto.
    + rewrite (post_toys_run lax body p s l P).
      destruct (ge 0 (CreateToy.price p) && Toy.rating_ok (CreateToy.rating p))%bool.
      * unfold documents, insert_one, collection. cbn [db snd collections].
        destruct (String.eqb name "toy") eqn:E.
        -- apply String.eqb_eq in E. subst name. eexists. rewrite lookup_append_to.
           split; [reflexivity|]. split; [cbn; lia | intros H; now elim H].
        -- apply String.eqb_neq in E. exists [].
           rewrite (lookup_append_to_other "toy" name _ _ E), app_nil_r. cbn. auto.
      * exists []. cbn. rewrite app_nil_r. auto.
  - exists []. run. destruct (CreateToy.from_body lax body); cbn; auto.
Qed.

Lemma create_toy_only_appends_witness :
  documents "order" (snd (POST_api_toys Samples.strict Samples.body_empty_name Samples.one_toy))
  = documents "order" Samples.one_toy.
Proof.
  destruct (create_toy_only_appends Samples.strict Samples.body_empty_name Samples.one_toy
              "order") as [added [E [_ H]]].
  rewrite E, H; [apply app_nil_r | discriminate].
Defined.

(** *** Creating an order, continued *)

(** What the [Order] constructor makes of a dumped request payload. *)
Lemma Order_validate_dump ve lax (p : CreateOrder.t) :
  Order.validate ve lax (CreateOrder.model_dump p)
  = match ve (CreateOrder.customer_email p), items_of lax p with
    | Some e, Some its =>
        if (ge 0 (CreateOrder.subtotal p) && ge 0 (CreateOrder.shipping p)
            && ge 0 (CreateOrder.total p))%bool
        then inr (Order.Make (CreateOrder.customer_name p) e (CreateOrder.customer_address p)
                    its (CreateOrder.subtotal p) (CreateOrder.shipping p)
                    (CreateOrder.total p) (CreateOrder.notes p))
        else inl (Order_refusals ve lax p)
    | _, _ => inl (Order_refusals ve lax p)
    end.
Proof.
  unfold Order.validate, CreateOrder.model_dump, Order_refusals, items_of.
  cbn [required defaulted dict_get String.eqb Ascii.eqb Bool.eqb Order.as_email as_str
         as_float as_list constrained].
  rewrite nullable_dump_opt_str.
  destruct (ve (CreateOrder.customer_email p)),
    (all_some (map (OrderItem.from_pyval lax) (map PDict (CreateOrder.items p)))),
    (ge 0 (CreateOrder.subtotal p)), (ge 0 (CreateOrder.shipping p)),
    (ge 0 (CreateOrder.total p)); reflexivity.
Qed.

Lemma post_orders_run ve lax (body : pyval) (p : CreateOrder.t) (s : Store) (l : list Event) :
  CreateOrder.from_body lax body = inr p ->
  POST_api_orders ve lax body (MkWorld (Some s) l)
  = if truthy_list (CreateOrder.items p) then
      match Order.validate ve lax (CreateOrder.model_dump p) with
      | inr o =>
          (Reply 201 (PDict [("order_id", PStr (Bson.str (Bson.generate (counter s))))]),
           MkWorld (Some (snd (insert_one "order" (DOrder o) s)))
             (l ++ [Validated "CreateOrder"; Validated "Order"; StoreCall "insert_one" "order"]))
      | inl errors =>
          (Raised (ValidationError "Order" errors),
           MkWorld (Some s) (l ++ [Validated "CreateOrder"; Validated "Order"]))
      end
    else
      (Raised (HTTPException 400 "Order must contain at least one item"),
       MkWorld (Some s) (l ++ [Validated "CreateOrder"])).
Proof.
  intros P. run. rewrite P. cbn [fst snd db log].
  destruct (truthy_list (CreateOrder.items p)); cbn [negb]; [|reflexivity].
  destruct (Order.validate ve lax (CreateOrder.model_dump p));
    cbn [fst snd db log insert_one]; rewrite <- !app_assoc; reflexivity.
Qed.

(** With a store, a body that [CreateOrder] accepts with at least one item,
    finite amounts and quantities that the store can keep, is created
    exactly when the address is valid, every item passes [OrderItem], and
    [subtotal], [shipping] and [total] are not negative.
    Then the answer is 201 with the new id and the order is appended with the
    normalised address and the validated items.  Otherwise the [Order]
    validation error names exactly the fields that fail, and the store is
    left as it was. *)
Theorem create_order_outcome :
  forall ve lax (body : pyval) (p : CreateOrder.t) (w : World) (s : Store),
    db w = Some s ->
    CreateOrder.from_body lax body = inr p ->
    CreateOrder.items p <> [] ->
    (forall its, items_of lax p = Some its -> quantities_fit its = true) ->
    match ve (CreateOrder.customer_email p), items_of lax p with
    | Some e, Some its =>
        if (ge 0 (CreateOrder.subtotal p) && ge 0 (CreateOrder.shipping p)
            && ge 0 (CreateOrder.total p))%bool
        then
          fst (POST_api_orders ve lax body w)
          = Reply 201 (PDict [("order_id", PStr (Bson.str (Bson.generate (counter s))))])
          /\ documents "order" (snd (POST_api_orders ve lax body w))
             = documents "order" w
               ++ [Stored (Bson.generate (counter s))
                     (DOrder (Order.Make (CreateOrder.customer_name p) e
                                (CreateOrder.customer_address p) its
                                (CreateOrder.subtotal p) (CreateOrder.shipping p)
                                (CreateOrder.total p) (CreateOrder.notes p)))]
        else
          fst (POST_api_orders ve lax body w)
          = Raised (ValidationError "Order" (Order_refusals ve lax p))
          /\ db (snd (POST_api_orders ve lax body w)) = db w
    | _, _ =>
        fst (POST_api_orders ve lax body w)
        = Raised (ValidationError "Order" (Order_refusals ve lax p))
        /\ db (snd (POST_api_orders ve lax body w)) = db w
    end.
Proof.
  intros ve lax body p [s0 l] s E P Hne _. cbn [db] in E. subst s0.
  rewrite (post_orders_run ve lax body p s l P).
  destruct (CreateOrder.items p) as [|it its0] eqn:Ei; [congruence|].
  cbn [truthy_list]. rewrite Order_validate_dump.
  destruct (ve (CreateOrder.customer_email p)) as [e|]; [|split; reflexivity].
  destruct (items_of lax p) as [its|]; [|split; reflexivity].
  destruct (ge 0 (CreateOrder.subtotal p) && ge 0 (CreateOrder.shipping p)
            && ge 0 (CreateOrder.total p))%bool; cbn [fst snd]; split; try reflexivity.
  unfold documents, insert_one, collection. cbn [db snd collections].
  apply lookup_append_to.
Qed.

Lemma create_order_outcome_witness :
  fst (POST_api_orders Samples.email_syntax Samples.strict
         (PDict [("customer_name", PStr "Ada"); ("customer_email", PStr "abc");
                 ("customer_address", PStr "1 Main St"); ("items", PList [Samples.item]);
                 ("subtotal", PInt 10); ("shipping", PInt (-3)); ("total", PInt 99)])
         Samples.up)
  = Raised (ValidationError "Order" ["customer_email"; "shipping"])
  /\ db (snd (POST_api_orders Samples.email_syntax Samples.strict
                (PDict [("customer_name", PStr "Ada"); ("customer_email", PStr "abc");
                        ("customer_address", PStr "1 Main St");
                        ("items", PList [Samples.item]);
                        ("subtotal", PInt 10); ("shipping", PInt (-3)); ("total", PInt 99)])
                Samples.up))
     = db Samples.up.
Proof.
  refine (create_order_outcome Samples.email_syntax Samples.strict
            (PDict [("customer_name", PStr "Ada"); ("customer_email", PStr "abc");
                    ("customer_address", PStr "1 Main St"); ("items", PList [Samples.item]);
                    ("subtotal", PInt 10); ("shipping", PInt (-3)); ("total", PInt 99)])
            (CreateOrder.Make "Ada" "abc" "1 Main St"
               [[("toy_id", PStr "000000000000000000000000"); ("name", PStr "Bear");
                 ("price", PFloat (1 # 1)); ("quantity", PInt 2)]]
               (10 # 1) (-3 # 1) (99 # 1) None)
            Samples.up Samples.empty_store eq_refl eq_refl _ _).
  - discriminate.
  - intros its H. injection H as <-. reflexivity.
Defined.





(** Creating an order leaves the documents already stored where they are:
    at most one document is appended to the order collection, and no other
    collection changes; in particular no toy is touched. *)
Theorem create_order_only_appends :
  forall ve lax (body : pyval) (w : World) (name : string),
  exists added,
    documents name (snd (POST_api_orders ve lax body w)) = documents name w ++ added
    /\ (List.length added <= 1)%nat
    /\ (name <> "order" -> added = []).
Proof.
  intros ve lax body [[s|] l] name.
  - destruct (CreateOrder.from_body lax body) as [errors|p] eqn:P.
    + exists []. run. rewrite P. cbn. rewrite app_nil_r. auto.
    + rewrite (post_orders_run ve lax body p s l P).
      destruct (truthy_list (CreateOrder.items p));
        [|exists []; cbn; rewrite app_nil_r; auto].
      destruct (Order.validate ve lax (CreateOrder.model_dump p)) as [errors|o];
        [exists []; cbn; rewrite app_nil_r; auto|].
      unfold documents, insert_one, collection. cbn [db snd collections].
      destruct (String.eqb name "order") eqn:E.
      * apply String.eqb_eq in E. subst name. eexists. rewrite lookup_append_to.
        split; [reflexivity|]. split; [cbn; lia | intros H; now elim H].
      * apply String.eqb_neq in E. exists [].
        rewrite (lookup_append_to_other "order" name _ _ E), app_nil_r. cbn. auto.
  - exists []. run. destruct (CreateOrder.from_body lax body); cbn; auto.
Qed.

Lemma create_order_only_appends_witness :
  documents "toy"
    (snd (POST_api_orders Samples.email_syntax Samples.strict
            (Samples.order_body "ada@example.org" [Samples.item]) Samples.one_toy))
  = documents "toy" Samples.one_toy.
Proof.
  destruct (create_order_only_appends Samples.email_syntax Samples.strict
              (Samples.order_body "ada@example.org" [Samples.item]) Samples.one_toy "toy")
    as [added [E [_ H]]].
  rewrite E, H; [apply app_nil_r | discriminate].
Defined.

(** *** Seeding, continued *)

Lemma insert_all_other (name : string) (todo : list Document) (s : Store) :
  name <> "toy" -> collection name (insert_all "toy" todo s) = collection name s.
Proof.
  intros Hne. revert s. induction todo as [|data todo IH]; intros s; [reflexivity|].
  cbn [insert_all fold_left]. unfold insert_all in IH. rewrite IH.
  unfold collection, insert_one. cbn [snd collections].
  now apply lookup_append_to_other.
Qed.

Lemma insert_all_docs (todo : list Document) (s : Store) :
  exists added,
    collection "toy" (insert_all "toy" todo s) = collection "toy" s ++ added
    /\ map body added = todo.
Proof.
  revert s. induction todo as [|data todo IH]; intros s.
  - exists []. cbn. now rewrite app_nil_r.
  - cbn [insert_all fold_left]. unfold insert_all in IH.
    destruct (IH (snd (insert_one "toy" data s))) as [added [E B]].
    exists (Stored (Bson.generate (counter s)) data :: added).
    rewrite E. unfold collection at 1, insert_one. cbn [snd collections].
    rewrite lookup_append_to, <- app_assoc. cbn. now rewrite B.
Qed.

(** Without a store the seed route reports that and does nothing.  Whatever
    the store, the documents already stored stay where they are: nothing is
    added to a collection other than the toys, nothing is added when the toy
    collection already holds a document, and every document added is one of
    the samples. *)
Theorem seed_only_appends :
  forall (w : World) (name : string),
    (db w = None ->
     GET_api_seed w = (Reply 200 (PDict [("status", PStr "Database unavailable")]), w))
    /\ exists added,
         documents name (snd (GET_api_seed w)) = documents name w ++ added
         /\ (name <> "toy" -> added = [])
         /\ (documents "toy" w <> [] -> added = [])
         /\ incl (map body added) samples.
Proof.
  intros [[s|] l] name.
  - split; [discriminate|].
    run. destruct (collection "toy" s) as [|d0 docs] eqn:C.
    + cbn [List.length Nat.ltb Nat.leb]. rewrite seed_loop_with_store.
      cbn [fst snd]. unfold documents. cbn [db].
      destruct (String.eqb name "toy") eqn:E.
      * apply String.eqb_eq in E. subst name.
        destruct (insert_all_docs samples s) as [added [Ea Ba]].
        exists added. split; [exact Ea|]. split; [intros H; now elim H|].
        split; [rewrite C; intros H; now elim H|]. rewrite Ba. apply incl_refl.
      * apply String.eqb_neq in E. exists [].
        rewrite (insert_all_other name samples s E), app_nil_r.
        repeat split; auto. apply incl_nil_l.
    + cbn. exists []. unfold documents. cbn [db]. rewrite app_nil_r.
      repeat split; auto. apply incl_nil_l.
  - split; [reflexivity|]. exists []. cbn. repeat split; auto. apply incl_nil_l.
Qed.

Lemma seed_only_appends_witness :
  GET_api_seed Samples.down
  = (Reply 200 (PDict [("status", PStr "Database unavailable")]), Samples.down)
  /\ documents "order" (snd (GET_api_seed Samples.up)) = documents "order" Samples.up.
Proof.
  split.
  - exact (proj1 (seed_only_appends Samples.down "toy") eq_refl).
  - destruct (proj2 (seed_only_appends Samples.up "order")) as [added [E [H _]]].
    rewrite E, H; [reflexivity | discriminate].
Defined.

(** *** The schemas *)

Lemma nullable_dump_opt_int lax (o : option Z) :
  nullable (as_int lax) (User.dump_opt_int o) = Some o.
Proof. destruct o; reflexivity. Qed.

(** A toy read back from its own dump is the same toy, and this succeeds
    exactly when its price is not negative and its rating is null or between
    0 and 5. *)
Theorem Toy_dump_validate :
  forall lax (t : Toy.t),
    Toy.validate lax (Toy.model_dump t) = inr t
    <-> (ge 0 (Toy.price t) && Toy.rating_ok (Toy.rating t))%bool = true.
Proof.
  intros lax [n de x c im r st].
  unfold Toy.validate, Toy.model_dump.
  cbn [required defaulted dict_get String.eqb Ascii.eqb Bool.eqb as_float as_str as_bool
         constrained Toy.name Toy.description Toy.price Toy.category Toy.image Toy.rating
         Toy.in_stock].
  rewrite !nullable_dump_opt_str, nullable_dump_opt_float. cbn [constrained].
  destruct (ge 0 x), (Toy.rating_ok r); cbn [andb]; split; intros H;
    try reflexivity; discriminate H.
Qed.

Lemma Toy_dump_validate_witness :
  Toy.validate Samples.strict (Toy.model_dump Samples.bear) = inr Samples.bear.
Proof. apply (proj2 (Toy_dump_validate Samples.strict Samples.bear)). reflexivity. Defined.

(** A product read back from its own dump is the same product, and this
    succeeds exactly when its price is not negative. *)
Theorem Product_dump_validate :
  forall lax (m : Product.t),
    Product.validate lax (Product.model_dump m) = inr m <-> ge 0 (Product.price m) = true.
Proof.
  intros lax [ti de x c st].
  unfold Product.validate, Product.model_dump.
  cbn [required defaulted dict_get String.eqb Ascii.eqb Bool.eqb as_float as_str as_bool
         constrained Product.title Product.description Product.price Product.category
         Product.in_stock].
  rewrite nullable_dump_opt_str.
  destruct (ge 0 x); split; intros H; try reflexivity; discriminate H.
Qed.

Lemma Product_dump_validate_witness :
  Product.validate Samples.strict
    (Product.model_dump (Product.Make "Kite" None (7 # 2) "Outdoor" true))
  = inr (Product.Make "Kite" None (7 # 2) "Outdoor" true).
Proof.
  apply (proj2 (Product_dump_validate Samples.strict
                  (Product.Make "Kite" None (7 # 2) "Outdoor" true))).
  reflexivity.
Defined.

(** A user whose address the validator returns unchanged is read back from
    its own dump as the same user exactly when the age is null or between 0
    and 120. *)
Theorem User_dump_validate :
  forall ve lax (u : User.t),
    ve (User.email u) = Some (User.email u) ->
    (User.validate ve lax (User.model_dump u) = inr u <-> User.age_ok (User.age u) = true).
Proof.
  intros ve lax [n e a ag ac] He. cbn [User.email] in He.
  unfold User.validate, User.model_dump.
  cbn [required defaulted dict_get String.eqb Ascii.eqb Bool.eqb Order.as_email as_str
         as_bool User.name User.email User.address User.age User.is_active].
  rewrite He, nullable_dump_opt_int. cbn [constrained].
  destruct (User.age_ok ag); split; intros H; try reflexivity; discriminate H.
Qed.

Lemma User_dump_validate_witness :
  User.validate Samples.email_syntax Samples.strict
    (User.model_dump (User.Make "Ada" "ada@example.org" "1 Main St" (Some 120%Z) true))
  = inr (User.Make "Ada" "ada@example.org" "1 Main St" (Some 120%Z) true).
Proof.
  apply (proj2 (User_dump_validate Samples.email_syntax Samples.strict
                  (User.Make "Ada" "ada@example.org" "1 Main St" (Some 120%Z) true)
                  eq_refl)).
  reflexivity.
Defined.

Lemma OrderItem_dump_validate lax (it : OrderItem.t) :
  OrderItem.from_pyval lax (OrderItem.model_dump it) = if item_ok it then Some it else None.
Proof.
  destruct it as [i n x q im].
  unfold OrderItem.from_pyval, OrderItem.model_dump, OrderItem.validate, item_ok.
  cbn [required defaulted dict_get String.eqb Ascii.eqb Bool.eqb as_float as_str as_int
         constrained OrderItem.toy_id OrderItem.name OrderItem.price OrderItem.quantity
         OrderItem.image].
  rewrite nullable_dump_opt_str.
  destruct (ge 0 x), (Z.leb 1 q); reflexivity.
Qed.

Lemma items_dump_validate lax (its : list OrderItem.t) :
  all_some (map (OrderItem.from_pyval lax) (map OrderItem.model_dump its))
  = if forallb item_ok its then Some its else None.
Proof.
  induction its as [|it its IH]; [reflexivity|].
  cbn [map all_some forallb]. rewrite OrderItem_dump_validate, IH.
  destruct (item_ok it), (forallb item_ok its); reflexivity.
Qed.

(** An order whose address the validator returns unchanged is read back
    from its own dump as the same order exactly when every item has a price
    of at least 0 and a quantity of at least 1, and [subtotal], [shipping]
    and [total] are not negative. *)
Theorem Order_dump_validate :
  forall ve lax (o : Order.t),
    ve (Order.customer_email o) = Some (Order.customer_email o) ->
    (Order.validate ve lax (Order.model_dump o) = inr o
     <-> (forallb item_ok (Order.items o) && ge 0 (Order.subtotal o)
          && ge 0 (Order.shipping o) && ge 0 (Order.total o))%bool = true).
Proof.
  intros ve lax [n e a its sub sh tot no] He. cbn [Order.customer_email] in He.
  unfold Order.validate, Order.model_dump.
  cbn [required defaulted dict_get String.eqb Ascii.eqb Bool.eqb Order.as_email as_str
         as_float as_list constrained Order.customer_name Order.customer_email
         Order.customer_address Order.items Order.subtotal Order.shipping Order.total
         Order.notes].
  rewrite He, items_dump_validate, nullable_dump_opt_str.
  destruct (forallb item_ok its), (ge 0 sub), (ge 0 sh), (ge 0 tot); cbn [andb];
    split; intros H; try reflexivity; discriminate H.
Qed.

Lemma Order_dump_validate_witness :
  Order.validate Samples.email_syntax Samples.strict
    (Order.model_dump
       (Order.Make "Ada" "ada@example.org" "1 Main St"
          [OrderItem.Make "000000000000000000000000" "Bear" (1 # 1) 2 None]
          (10 # 1) (3 # 1) (99 # 1) None))
  = inr (Order.Make "Ada" "ada@example.org" "1 Main St"
           [OrderItem.Make "000000000000000000000000" "Bear" (1 # 1) 2 None]
           (10 # 1) (3 # 1) (99 # 1) None).
Proof.
  apply (proj2 (Order_dump_validate Samples.email_syntax Samples.strict
                  (Order.Make "Ada" "ada@example.org" "1 Main St"
                     [OrderItem.Make "000000000000000000000000" "Bear" (1 # 1) 2 None]
                     (10 # 1) (3 # 1) (99 # 1) None)
                  eq_refl)).
  reflexivity.
Defined.

(** *** The diagnostic route *)

Lemma count_chars_take (n : nat) (s : string) :
  (count_chars (take_chars n s) <= n)%nat.
Proof.
  revert n. induction s as [|c r IH]; intros n; cbn [take_chars count_chars]; [lia|].
  destruct (is_continuation c) eqn:E.
  - cbn [count_chars]. rewrite E. apply IH.
  - destruct n as [|k]; cbn [count_chars]; [lia|]. rewrite E. specialize (IH k). lia.
Qed.

Lemma take_chars_all (n : nat) (s : string) :
  (count_chars s <= n)%nat -> take_chars n s = s.
Proof.
  revert n. induction s as [|c r IH]; intros n H; cbn [take_chars count_chars] in *;
    [reflexivity|].
  destruct (is_continuation c).
  - now rewrite IH.
  - destruct n as [|k]; [lia|]. rewrite IH; [reflexivity | lia].
Qed.

(** The diagnostic route never fails and never changes the store: it
    answers 200 with the six keys of the report, the backend marked as
    running, [connection_status] at "Connected" exactly when there is a
    store, and at most 10 collection names. *)
Theorem test_database_never_fails :
  forall getenv listing (w : World),
  exists response,
    fst (GET_test getenv listing w) = Reply 200 (PDict response)
    /\ db (snd (GET_test getenv listing w)) = db w
    /\ keys response
       = ["backend"; "database"; "database_url"; "database_name"; "connection_status";
          "collections"]
    /\ dict_get "backend" response = Some (PStr "✅ Running")
    /\ (dict_get "connection_status" response = Some (PStr "Connected") <-> db w <> None)
    /\ exists names,
         dict_get "collections" response = Some (PList (map PStr names))
         /\ (List.length names <= 10)%nat.
Proof.
  intros getenv listing [[s|] l]; unfold GET_test, respond, test_database; cbn [db].
  - destruct (listing s) as [e|names]; eexists; cbn [fst snd db];
      (split; [reflexivity|]); (split; [reflexivity|]); (split; [reflexivity|]);
      (split; [reflexivity|]); (split; [split; [discriminate | reflexivity]|]).
    + exists []. split; [reflexivity | cbn; lia].
    + exists (firstn 10 names). split; [reflexivity | apply firstn_le_length].
  - eexists; cbn [fst snd db]. repeat (split; [reflexivity|]). split.
    + split; [discriminate | intros H; now elim H].
    + exists []. split; [reflexivity | cbn; lia].
Qed.

Lemma test_database_never_fails_witness :
  exists response,
    fst (GET_test (fun _ => None) (fun _ => inl "boom") Samples.up) = Reply 200 (PDict response)
    /\ dict_get "connection_status" response = Some (PStr "Connected").
Proof.
  destruct (test_database_never_fails (fun _ => None) (fun _ => inl "boom") Samples.up)
    as [response [E [_ [_ [_ [C _]]]]]].
  exists response. split; [exact E|]. apply C. discriminate.
Defined.

(** When listing the collections fails, the report still says "Connected",
    lists no collection, and carries the text of the failure cut after 50
    characters; a text of at most 50 characters is carried whole. *)
Theorem test_database_listing_error :
  forall getenv listing (w : World) (s : Store) (e : string),
    db w = Some s ->
    listing s = inl e ->
    exists response,
      fst (GET_test getenv listing w) = Reply 200 (PDict response)
      /\ dict_get "database" response
         = Some (PStr ("⚠️  Connected but Error: " ++ take_chars 50 e))
      /\ dict_get "connection_status" response = Some (PStr "Connected")
      /\ dict_get "collections" response = Some (PList [])
      /\ (count_chars (take_chars 50 e) <= 50)%nat
      /\ ((count_chars e <= 50)%nat -> take_chars 50 e = e).
Proof.
  intros getenv listing [s0 l] s e E L. cbn [db] in E. subst s0.
  unfold GET_test, respond, test_database. cbn [db]. rewrite L.
  eexists. cbn [fst]. repeat (split; [reflexivity|]). split.
  - apply count_chars_take.
  - apply take_chars_all.
Qed.

Lemma test_database_listing_error_witness :
  exists response,
    fst (GET_test (fun _ => None) (fun _ => inl "boom") Samples.up) = Reply 200 (PDict response)
    /\ dict_get "database" response = Some (PStr "⚠️  Connected but Error: boom").
Proof.
  destruct (test_database_listing_error (fun _ => None) (fun _ => inl "boom") Samples.up
              Samples.empty_store "boom" eq_refl eq_refl)
    as [response [E [D [_ [_ [_ T]]]]]].
  exists response. split; [exact E|]. rewrite D, T; [reflexivity | cbn; lia].
Defined.

(** With a store, the report marks each of the two environment variables as
    set exactly when it is defined and not empty; without a store it leaves
    both marks null. *)
Theorem test_database_environment :
  forall getenv listing (w : World),
  exists response,
    fst (GET_test getenv listing w) = Reply 200 (PDict response)
    /\ (db w = None ->
        dict_get "database_url" response = Some PNone
        /\ dict_get "database_name" response = Some PNone)
    /\ (db w <> None ->
        (dict_get "database_url" response = Some (PStr "✅ Set")
         <-> exists v, getenv "DATABASE_URL" = Some v /\ v <> "")
        /\ (dict_get "database_name" response = Some (PStr "✅ Set")
            <-> exists v, getenv "DATABASE_NAME" = Some v /\ v <> "")).
Proof.
  assert (S : forall o, set_or_not o = PStr "✅ Set" <-> exists v, o = Some v /\ v <> "").
  { intros [v|]; unfold set_or_not, truthy_str.
    - destruct (String.eqb v "") eqn:E; cbn [negb].
      + apply String.eqb_eq in E. split; [discriminate|]. intros [v' [[= <-] H]]. now elim H.
      + apply String.eqb_neq in E. split; [|reflexivity]. intros _. now exists v.
    - split; [discriminate|]. intros [v [H _]]. discriminate H. }
  assert (I : forall a b : pyval, a = b <-> Some a = Some b).
  { intros a b. split; [now intros -> | now intros [= ->]]. }
  intros getenv listing [[s|] l]; unfold GET_test, respond, test_database; cbn [db].
  - destruct (listing s) as [e|names]; eexists; cbn [fst];
      (split; [reflexivity|]); (split; [discriminate|]); intros _;
      cbn [dict_get dict_set String.eqb Ascii.eqb Bool.eqb];
      split; (etransitivity; [symmetry; apply I | apply S]).
  - eexists; cbn [fst]. split; [reflexivity|]. split; [split; reflexivity|].
    intros H. now elim H.
Qed.

Lemma test_database_environment_witness :
  exists response,
    fst (GET_test (fun k => if String.eqb k "DATABASE_URL" then Some "" else Some "shop")
           (fun _ => inr []) Samples.up)
    = Reply 200 (PDict response)
    /\ dict_get "database_name" response = Some (PStr "✅ Set").
Proof.
  destruct (test_database_environment
              (fun k => if String.eqb k "DATABASE_URL" then Some "" else Some "shop")
              (fun _ => inr []) Samples.up) as [response [E [_ H]]].
  exists response. split; [exact E|].
  apply (proj2 (H ltac:(discriminate))). exists "shop". split; [reflexivity | discriminate].
Defined.
